(** * Archive ingestion engine: shallow embedding and verified properties

    The embedding follows [src/app/utils.py] (the filename tagger and the
    timestamp resolver) and [src/app/services.py] (the sync controller
    [process_and_cache_user_posts], with its inlined author aggregator,
    file grouper and post extractor) and the columns of [src/app/models.py].

    Modelling conventions.
    - A Python [str] is a [string]; characters are 8-bit and the character
      classes of [re], [str.lower] and [str.strip] are the ASCII ones.
    - A value produced by [json.load] is a [jvalue]; Python's [None] is
      [JNull], a [dict] is an association list looked up from the left, a
      finite [float] is a rational.
    - An exception raised inside a [try] block is the constructor [Exc] of
      [exn]; every [except] clause of the source catches it as written.
    - The archive on disk is read through the class [FileSystem]; the
      functions of the Python runtime whose result is not computed here
      ([datetime.strptime], [datetime.fromtimestamp]) and the constant of the
      module [app.constants] are the fields of the class [Runtime].
    - The store is the pair of the two tables; a commit always succeeds. *)

From Stdlib Require Import ZArith QArith Qround Ascii Bool Lia.
From Stdlib Require String.
From stdpp Require Import base option list sorting strings pretty gmap fin_maps.

Local Open Scope Z_scope.
Set Warnings "-register-all".

(** ** Python strings *)

Module Py.

Definition is_digit (c : ascii) : bool :=
  match c with
  | "0" | "1" | "2" | "3" | "4" | "5" | "6" | "7" | "8" | "9" => true
  | _ => false
  end%char.

Definition digit_value (c : ascii) : Z :=
  match c with
  | "1" => 1 | "2" => 2 | "3" => 3 | "4" => 4 | "5" => 5
  | "6" => 6 | "7" => 7 | "8" => 8 | "9" => 9 | _ => 0
  end%char.

(** [str.isspace] on one ASCII character. *)
Definition is_space (c : ascii) : bool :=
  match c with
  | "009" | "010" | "011" | "012" | "013"
  | "028" | "029" | "030" | "031" | " " => true
  | _ => false
  end%char.

Definition is_empty (s : string) : bool :=
  match s with EmptyString => true | String _ _ => false end.

(** The longest prefix of [s] made of digits: what [\d+] consumes. *)
Fixpoint digit_run (s : string) : string :=
  match s with
  | String c t => if is_digit c then String c (digit_run t) else EmptyString
  | EmptyString => EmptyString
  end.

Fixpoint take (n : nat) (s : string) : string :=
  match n, s with
  | S k, String c t => String c (take k t)
  | _, _ => EmptyString
  end.

(** [int(s)] for a string of decimal digits. *)
Fixpoint int_digits (acc : Z) (s : string) : Z :=
  match s with
  | EmptyString => acc
  | String c t => int_digits (10 * acc + digit_value c) t
  end.

Definition int (s : string) : Z := int_digits 0 s.

(** [s.endswith(suffix)]. *)
Fixpoint endswith (s suffix : string) : bool :=
  String.eqb s suffix ||
  match s with
  | EmptyString => false
  | String _ t => endswith t suffix
  end.

(** [s.endswith(t)] for a tuple [t] of suffixes. *)
Definition endswith_any (s : string) (suffixes : list string) : bool :=
  existsb (endswith s) suffixes.

Definition lower_char (c : ascii) : ascii :=
  let n := N_of_ascii c in
  if ((65 <=? n) && (n <=? 90))%N then ascii_of_N (n + 32) else c.

Fixpoint lower (s : string) : string :=
  match s with
  | EmptyString => EmptyString
  | String c t => String (lower_char c) (lower t)
  end.

Fixpoint lstrip (s : string) : string :=
  match s with
  | String c t => if is_space c then lstrip t else s
  | EmptyString => EmptyString
  end.

Fixpoint rstrip (s : string) : string :=
  match s with
  | EmptyString => EmptyString
  | String c t =>
      let t' := rstrip t in
      if is_space c && is_empty t' then EmptyString else String c t'
  end.

Definition strip (s : string) : string := rstrip (lstrip s).

(** [f.readlines()] on the decoded text of a file: every line keeps its
    terminating newline. *)
Fixpoint readlines (s : string) : list string :=
  match s with
  | EmptyString => []
  | String c t =>
      if Ascii.eqb c "010"%char then String c EmptyString :: readlines t
      else match readlines t with
           | [] => [String c EmptyString]
           | l :: ls => String c l :: ls
           end
  end.

(** [f.readline()] on a freshly opened file. *)
Definition readline (s : string) : string :=
  match readlines s with [] => EmptyString | l :: _ => l end.

(** [sep.join(l)] with the empty separator. *)
Definition join (l : list string) : string := foldr String.append EmptyString l.

(** [s.replace(a, b)] for single characters. *)
Fixpoint replace_char (a b : ascii) (s : string) : string :=
  match s with
  | EmptyString => EmptyString
  | String c t => String (if Ascii.eqb c a then b else c) (replace_char a b t)
  end.

(** [s.rfind(c)], with [-1] when [c] does not occur. *)
Fixpoint rfind_from (i : Z) (c : ascii) (s : string) : Z :=
  match s with
  | EmptyString => -1
  | String d t =>
      let r := rfind_from (i + 1) c t in
      if 0 <=? r then r else if Ascii.eqb d c then i else -1
  end.

Definition rfind (c : ascii) (s : string) : Z := rfind_from 0 c s.

Fixpoint drop (n : nat) (s : string) : string :=
  match n, s with
  | S k, String _ t => drop k t
  | _, _ => s
  end.

(** [posixpath.join(a, b)]. *)
Definition path_join (a b : string) : string :=
  match b with
  | String "/" _ => b
  | _ => if is_empty a || endswith a "/" then a +:+ b else a +:+ "/" +:+ b
  end.

(** [os.path.splitext(p)[0]] of [posixpath]: the name is cut at its last
    dot when some character other than a dot stands between the last
    separator and that dot. *)
Fixpoint only_dots (s : string) : bool :=
  match s with
  | EmptyString => true
  | String c t => Ascii.eqb c "." && only_dots t
  end.

Definition splitext_root (p : string) : string :=
  let sepIndex := rfind "/" p in
  let dotIndex := rfind "." p in
  if sepIndex <? dotIndex then
    let leading :=
      take (Z.to_nat (dotIndex - (sepIndex + 1))) (drop (Z.to_nat (sepIndex + 1)) p) in
    if only_dots leading then p else take (Z.to_nat dotIndex) p
  else p.

End Py.

(** ** Values read from metadata files *)

Inductive jvalue : Type :=
  | JNull
  | JBool (b : bool)
  | JInt (n : Z)
  | JFloat (q : Q)
  | JString (s : string)
  | JArray (l : list jvalue)
  | JObject (d : list (string * jvalue)).

(** The result of a computation that may raise. *)
Inductive exn (A : Type) : Type :=
  | Val (a : A)
  | Exc.
Arguments Val {A} a.
Arguments Exc {A}.

Definition exn_bind {A B} (m : exn A) (k : A → exn B) : exn B :=
  match m with Val a => k a | Exc => Exc end.

Notation "'let*' x ':=' m 'in' k" := (exn_bind m (fun x => k))
  (at level 10, x name, m at level 100, k at level 200).

(** [try: m except Exception: d]. *)
Definition catch {A} (m : exn A) (d : A) : A :=
  match m with Val a => a | Exc => d end.

(** Python's truth value of a JSON value. *)
Definition truthy (v : jvalue) : bool :=
  match v with
  | JNull => false
  | JBool b => b
  | JInt n => negb (n =? 0)
  | JFloat q => negb (Qnum q =? 0)
  | JString s => negb (Py.is_empty s)
  | JArray l => match l with [] => false | _ => true end
  | JObject d => match d with [] => false | _ => true end
  end.

(** [a or b]. *)
Definition py_or (a b : jvalue) : jvalue := if truthy a then a else b.

Fixpoint dict_lookup (k : string) (d : list (string * jvalue)) : option jvalue :=
  match d with
  | [] => None
  | (k', v) :: r => if String.eqb k k' then Some v else dict_lookup k r
  end.

(** [k in d]. *)
Definition dict_has (k : string) (d : list (string * jvalue)) : bool :=
  match dict_lookup k d with Some _ => true | None => false end.

(** [d.get(k, default)] on a dictionary. *)
Definition dict_get (d : list (string * jvalue)) (k : string) (default : jvalue) : jvalue :=
  match dict_lookup k d with Some v => v | None => default end.

(** [x.get(k)] on any value: only a dictionary has the method. *)
Definition py_get (x : jvalue) (k : string) : exn jvalue :=
  match x with
  | JObject d => Val (dict_get d k JNull)
  | _ => Exc
  end.

(** [x.get(k, {})]. *)
Definition py_get_or_empty (x : jvalue) (k : string) : exn jvalue :=
  match x with
  | JObject d => Val (dict_get d k (JObject []))
  | _ => Exc
  end.

(** [x == s] for a string [s]. *)
Definition eq_str (x : jvalue) (s : string) : bool :=
  match x with JString t => String.eqb t s | _ => false end.

(** A naive [datetime]. *)
Record datetime : Type := mk_datetime {
  year : Z; month : Z; day : Z;
  hour : Z; minute : Z; second : Z; microsecond : Z
}.

(** ** The archive on disk and the runtime *)

(** The directory of an author is named by the author's handle, a file by
    the handle and its name in that directory. [None] stands for a raised
    [OSError] (or, for [open_json], any error of [open] or [json.load]). *)
Class FileSystem : Type := {
  isdir : string → bool;
  listdir : string → option (list string);
  isfile : string → string → bool;
  path_exists : string → string → bool;
  open_json : string → string → option jvalue;
  open_text : string → string → option string;
  getmtime : string → string → option Q
}.

Class Runtime : Type := {
  (** [datetime.strptime(s, '%Y-%m-%d %H:%M:%S')]; [None] is [ValueError]. *)
  strptime : string → option datetime;
  (** [datetime.fromtimestamp(t)]. *)
  fromtimestamp : Q → datetime;
  (** [app.constants.MEDIA_EXTENSIONS]. *)
  MEDIA_EXTENSIONS : list string
}.

(** ** The two tables of [src/app/models.py] *)

Module User.
Record t : Type := mk {
  id : nat;
  username : string;
  name : jvalue;
  nick : jvalue;
  location : jvalue;
  description : jvalue;
  verified : jvalue;
  profile_image_url : jvalue;
  favourites_count : jvalue;
  followers_count : jvalue;
  friends_count : jvalue;
  listed_count : jvalue;
  media_count : jvalue;
  statuses_count : jvalue
}.
End User.

Module Post.
Record t : Type := mk {
  id : string;
  user_id : nat;
  timestamp : option datetime;
  text_content : jvalue;
  media_files : list string;
  retweet_count : jvalue;
  reply_count : jvalue;
  favorite_count : jvalue;
  bookmark_count : jvalue;
  raw_json_data : option jvalue
}.
End Post.

(** The rows of [User] in insertion order and the rows of [Post] under
    their primary key. A column holds the Python value assigned to it;
    [media_files] and [raw_json_data] hold the values whose [json.dumps]
    text the columns [media_files_json] and [raw_json_data_text] store. *)
Record Store : Type := mk_Store {
  users : list User.t;
  posts : gmap string Post.t
}.

(** ** The regular expressions of [src/app/utils.py] *)

(** [re.match(r'^(\d+)', s)]: group 1, when there is a match. *)
Definition re_match_leading_digits (s : string) : option string :=
  let run := Py.digit_run s in
  if Py.is_empty run then None else Some run.

(** [re.search(r'(\d{9,11})', s)]: group 1 of the leftmost match, which
    greedily takes up to eleven digits. *)
Fixpoint re_search_digits_9_11 (s : string) : option string :=
  match s with
  | EmptyString => None
  | String _ t =>
      let run := Py.digit_run s in
      if (9 <=? String.length run)%nat then Some (Py.take 11 run)
      else re_search_digits_9_11 t
  end.

(** [next((f for f in files if f.endswith(suffix)), None)]. *)
Definition first_endswith (suffix : string) (files : list string) : option string :=
  List.find (fun f => Py.endswith f suffix) files.

(** ** [src/app/utils.py] *)

Definition extract_tweet_id_from_filename (filename : string) : option string :=
  match re_match_leading_digits filename with
  | Some group1 => Some group1
  | None => None
  end.

Section Resolver.
Context `{FileSystem} `{Runtime}.

(** Priority 1: the [date] field of the group's [.json] file. A [date] that
    is no string makes [strptime] raise [TypeError], caught like the rest. *)
Definition timestamp_from_json (user_folder_path : string) (files_for_post : list string)
  : option datetime :=
  match first_endswith ".json" files_for_post with
  | Some json_file_name =>
      match open_json user_folder_path json_file_name with
      | Some json_data =>
          match py_get json_data "date" with
          | Val date_str =>
              if truthy date_str then
                match date_str with
                | JString s => strptime s
                | _ => None
                end
              else None
          | Exc => None
          end
      | None => None
      end
  | None => None
  end.

(** Priority 2: the first line of the group's [.txt] file. *)
Definition timestamp_from_txt (user_folder_path : string) (files_for_post : list string)
  : option datetime :=
  match first_endswith ".txt" files_for_post with
  | Some txt_file =>
      match open_text user_folder_path txt_file with
      | Some content =>
          let first_line := Py.strip (Py.readline content) in
          strptime first_line
      | None => None
      end
  | None => None
  end.

(** The test of one file name in priority 3. *)
Definition timestamp_from_filename (filename : string) : option datetime :=
  match re_search_digits_9_11 (Py.splitext_root filename) with
  | Some ts_str =>
      let ts_int := Py.int ts_str in
      if (946684800 <=? ts_int) && (ts_int <? 2524608000)
      then Some (fromtimestamp (inject_Z ts_int))
      else None
  | None => None
  end.

(** Priority 3: the loop over the file names. *)
Fixpoint timestamp_from_filenames (files_for_post : list string) : option datetime :=
  match files_for_post with
  | [] => None
  | filename :: rest =>
      match timestamp_from_filename filename with
      | Some timestamp => Some timestamp
      | None => timestamp_from_filenames rest
      end
  end.

(** Priority 4: the modification time of the first file. *)
Definition timestamp_from_mtime (user_folder_path : string) (files_for_post : list string)
  : option datetime :=
  match files_for_post with
  | first_file :: _ =>
      match getmtime user_folder_path first_file with
      | Some mod_time => Some (fromtimestamp mod_time)
      | None => None
      end
  | [] => None
  end.

Definition parse_timestamp (post_id user_folder_path : string) (files_for_post : list string)
  : option datetime :=
  match timestamp_from_json user_folder_path files_for_post with
  | Some timestamp => Some timestamp
  | None =>
  match timestamp_from_txt user_folder_path files_for_post with
  | Some timestamp => Some timestamp
  | None =>
  match timestamp_from_filenames files_for_post with
  | Some timestamp => Some timestamp
  | None => timestamp_from_mtime user_folder_path files_for_post
  end end end.

End Resolver.

(** ** [src/app/services.py] *)

(** What a call of [process_and_cache_user_posts] hands to its caller: the
    pair of counts, or the exception that leaves the function. *)
Inductive outcome : Type :=
  | Returned (added deleted : nat)
  | Raised.

(** [sorted(names, reverse=True)]. *)
Fixpoint insert_descending (x : string) (l : list string) : list string :=
  match l with
  | [] => [x]
  | y :: r => if String.leb y x then x :: l else y :: insert_descending x r
  end.

Definition sorted_reverse (names : list string) : list string :=
  foldr insert_descending [] names.

(** The test of line 53 behind [user_info and (...)], left to right. *)
Definition names_user (data user_info : jvalue) (username : string) : exn bool :=
  let* nick := py_get user_info "nick" in
  if eq_str nick username then Val true else
  let* name := py_get user_info "name" in
  if eq_str name username then Val true else
  let* author := py_get_or_empty data "author" in
  let* author_nick := py_get author "nick" in
  if eq_str author_nick username then Val true else
  let* user := py_get_or_empty data "user" in
  let* user_nick := py_get user "nick" in
  Val (eq_str user_nick username).

(** The body of the [try] of lines 46-56 on a loaded file: the author
    record to keep, if the file names the author. *)
Definition user_info_of (username : string) (data : jvalue)
  : exn (option (list (string * jvalue))) :=
  let* author := py_get data "author" in
  let* user_info := (if truthy author then Val author else py_get data "user") in
  if truthy user_info then
    let* found := names_user data user_info username in
    match found, user_info with
    | true, JObject d => Val (Some d)
    | _, _ => Val None
    end
  else Val None.

(** Lines 61-72. *)
Definition update_user_fields (db_user : User.t) (user_json_data : list (string * jvalue))
  : User.t :=
  {| User.id := User.id db_user;
     User.username := User.username db_user;
     User.name := dict_get user_json_data "name" (User.name db_user);
     User.nick := dict_get user_json_data "nick" (User.nick db_user);
     User.location := dict_get user_json_data "location" (User.location db_user);
     User.description := dict_get user_json_data "description" (User.description db_user);
     User.verified := dict_get user_json_data "verified" (User.verified db_user);
     User.profile_image_url :=
       dict_get user_json_data "profile_image" (User.profile_image_url db_user);
     User.favourites_count :=
       dict_get user_json_data "favourites_count" (User.favourites_count db_user);
     User.followers_count :=
       dict_get user_json_data "followers_count" (User.followers_count db_user);
     User.friends_count := dict_get user_json_data "friends_count" (User.friends_count db_user);
     User.listed_count := dict_get user_json_data "listed_count" (User.listed_count db_user);
     User.media_count := dict_get user_json_data "media_count" (User.media_count db_user);
     User.statuses_count :=
       dict_get user_json_data "statuses_count" (User.statuses_count db_user) |}.

(** [User(username=username)] with the primary key the table assigns. *)
Definition new_user (rows : list User.t) (username : string) : User.t :=
  {| User.id := S (max_list_with User.id rows);
     User.username := username;
     User.name := JNull; User.nick := JNull; User.location := JNull;
     User.description := JNull; User.verified := JNull;
     User.profile_image_url := JNull; User.favourites_count := JNull;
     User.followers_count := JNull; User.friends_count := JNull;
     User.listed_count := JNull; User.media_count := JNull;
     User.statuses_count := JNull |}.

(** [User.query.filter_by(username=username).first()]. *)
Definition query_user (st : Store) (username : string) : option User.t :=
  List.find (fun u => String.eqb (User.username u) username) (users st).

(** The row of [db_user] is written back under its primary key. *)
Definition commit_user (db_user : User.t) (st : Store) : Store :=
  {| users := map (fun u => if Nat.eqb (User.id u) (User.id db_user) then db_user else u)
                  (users st);
     posts := posts st |}.

(** [db_user.posts]: the rows of [Post] that refer to the user. *)
Definition posts_of (user_id : nat) (rows : gmap string Post.t) : gmap string Post.t :=
  filter (fun kv => Post.user_id kv.2 = user_id) rows.

Definition posts_not_of (user_id : nat) (rows : gmap string Post.t) : gmap string Post.t :=
  filter (fun kv => Post.user_id kv.2 ≠ user_id) rows.

(** [files_by_tweet_id[tweet_id].append(filename)] on a [defaultdict(list)],
    which keeps its keys in insertion order. *)
Fixpoint group_append (tweet_id filename : string) (groups : list (string * list string))
  : list (string * list string) :=
  match groups with
  | [] => [(tweet_id, [filename])]
  | (k, fs) :: r =>
      if String.eqb k tweet_id then (k, fs ++ [filename]) :: r
      else (k, fs) :: group_append tweet_id filename r
  end.

Fixpoint group_lookup (tweet_id : string) (groups : list (string * list string))
  : option (list string) :=
  match groups with
  | [] => None
  | (k, fs) :: r => if String.eqb k tweet_id then Some fs else group_lookup tweet_id r
  end.

(** The post under construction ([temp_post_data], lines 120-131). *)
Definition empty_post (tweet_id : string) (user_id : nat) : Post.t :=
  {| Post.id := tweet_id; Post.user_id := user_id; Post.timestamp := None;
     Post.text_content := JNull; Post.media_files := [];
     Post.retweet_count := JNull; Post.reply_count := JNull;
     Post.favorite_count := JNull; Post.bookmark_count := JNull;
     Post.raw_json_data := None |}.

(** Lines 139-147 on the loaded metadata: the payload is kept first; the
    first [.get] raises on a value that is no dictionary and leaves the
    rest of the block undone. *)
Definition fill_from_json (p : Post.t) (json_data : jvalue) : Post.t :=
  match json_data with
  | JObject d =>
      {| Post.id := Post.id p; Post.user_id := Post.user_id p;
         Post.timestamp := Post.timestamp p;
         Post.text_content :=
           if negb (truthy (Post.text_content p))
              && (dict_has "full_text" d || dict_has "content" d || dict_has "text" d)
           then py_or (py_or (dict_get d "full_text" JNull) (dict_get d "content" JNull))
                      (dict_get d "text" JNull)
           else Post.text_content p;
         Post.media_files := Post.media_files p;
         Post.retweet_count := dict_get d "retweet_count" JNull;
         Post.reply_count := dict_get d "reply_count" JNull;
         Post.favorite_count := dict_get d "favorite_count" JNull;
         Post.bookmark_count := dict_get d "bookmark_count" JNull;
         Post.raw_json_data := Some json_data |}
  | _ =>
      {| Post.id := Post.id p; Post.user_id := Post.user_id p;
         Post.timestamp := Post.timestamp p;
         Post.text_content := Post.text_content p;
         Post.media_files := Post.media_files p;
         Post.retweet_count := Post.retweet_count p;
         Post.reply_count := Post.reply_count p;
         Post.favorite_count := Post.favorite_count p;
         Post.bookmark_count := Post.bookmark_count p;
         Post.raw_json_data := Some json_data |}
  end.

Definition set_text_content (p : Post.t) (text : jvalue) : Post.t :=
  {| Post.id := Post.id p; Post.user_id := Post.user_id p;
     Post.timestamp := Post.timestamp p;
     Post.text_content := text;
     Post.media_files := Post.media_files p;
     Post.retweet_count := Post.retweet_count p;
     Post.reply_count := Post.reply_count p;
     Post.favorite_count := Post.favorite_count p;
     Post.bookmark_count := Post.bookmark_count p;
     Post.raw_json_data := Post.raw_json_data p |}.

Definition set_media_and_timestamp (p : Post.t) (media : list string) (ts : option datetime)
  : Post.t :=
  {| Post.id := Post.id p; Post.user_id := Post.user_id p;
     Post.timestamp := ts;
     Post.text_content := Post.text_content p;
     Post.media_files := media;
     Post.retweet_count := Post.retweet_count p;
     Post.reply_count := Post.reply_count p;
     Post.favorite_count := Post.favorite_count p;
     Post.bookmark_count := Post.bookmark_count p;
     Post.raw_json_data := Post.raw_json_data p |}.

Section Sync.
Context `{FileSystem} `{Runtime}.

(** Lines 43-58: the candidates in descending order of name, until one
    names the author; a file that cannot be read or used is skipped. *)
Fixpoint collect_user_json (username : string) (candidates : list string)
  : list (string * jvalue) :=
  match candidates with
  | [] => []
  | json_file_name :: rest =>
      match open_json username json_file_name with
      | Some data =>
          match catch (user_info_of username data) None with
          | Some user_info => user_info
          | None => collect_user_json username rest
          end
      | None => collect_user_json username rest
      end
  end.

(** Lines 29-34. *)
Definition ensure_user (username : string) (st : Store) : User.t * Store :=
  match query_user st username with
  | Some db_user => (db_user, st)
  | None =>
      let db_user := new_user (users st) username in
      (db_user, {| users := users st ++ [db_user]; posts := posts st |})
  end.

(** Lines 36-81 once the directory has been listed. *)
Definition refresh_profile (username : string) (names : list string) (db_user : User.t)
  : User.t :=
  let json_files_in_folder := List.filter (fun f => Py.endswith f ".json") names in
  let user_json_data := collect_user_json username (sorted_reverse json_files_in_folder) in
  update_user_fields db_user user_json_data.

(** The loop body of lines 101-106. *)
Definition group_step (username : string) (groups : list (string * list string))
    (filename : string) : list (string * list string) :=
  if isfile username filename then
    match extract_tweet_id_from_filename filename with
    | Some tweet_id => group_append tweet_id filename groups
    | None => groups
    end
  else groups.

(** Lines 98-106. *)
Definition files_by_tweet_id (username : string) (names : list string)
  : list (string * list string) :=
  fold_left (group_step username) names [].

(** Lines 133-152. *)
Definition read_metadata (username : string) (associated_files : list string) (p : Post.t)
  : Post.t :=
  match first_endswith ".json" associated_files with
  | Some json_file =>
      if path_exists username json_file then
        match open_json username json_file with
        | Some json_data => fill_from_json p json_data
        | None => p
        end
      else p
  | None => p
  end.

(** Lines 154-171. *)
Definition read_caption (username : string) (associated_files : list string) (p : Post.t)
  : Post.t :=
  match first_endswith ".txt" associated_files with
  | Some txt_file =>
      match open_text username txt_file with
      | Some content =>
          match Py.readlines content with
          | [] => p
          | line0 :: rest =>
              let first_line := Py.strip line0 in
              match strptime first_line with
              | Some _ =>
                  if negb (truthy (Post.text_content p))
                  then set_text_content p (JString (Py.strip (Py.join rest)))
                  else p
              | None =>
                  if negb (truthy (Post.text_content p))
                  then set_text_content p (JString (Py.strip (Py.join (line0 :: rest))))
                  else p
              end
          end
      | None => p
      end
  | None => p
  end.

(** The loop body of lines 174-175. *)
Definition media_step (username : string) (media : list string) (filename : string)
  : list string :=
  if Py.endswith_any (Py.lower filename) MEDIA_EXTENSIONS
  then media ++ [Py.replace_char "092" "/" (Py.path_join username filename)]
  else media.

(** Lines 173-175. *)
Definition media_paths (username : string) (associated_files : list string) : list string :=
  fold_left (media_step username) associated_files [].

(** Lines 120-190: the row built for one group. *)
Definition extract_post (username : string) (user_id : nat) (tweet_id : string)
    (associated_files : list string) : Post.t :=
  let p := empty_post tweet_id user_id in
  let p := read_metadata username associated_files p in
  let p := read_caption username associated_files p in
  set_media_and_timestamp p (media_paths username associated_files)
    (parse_timestamp tweet_id username associated_files).

(** One turn of the loop of lines 115-192 on the counter and the rows. *)
Definition add_group (username : string) (user_id : nat)
    (acc : nat * gmap string Post.t) (group : string * list string)
  : nat * gmap string Post.t :=
  let '(newly_added_posts_count, rows) := acc in
  let '(tweet_id, associated_files) := group in
  match rows !! tweet_id with
  | Some _ => (newly_added_posts_count, rows)
  | None =>
      (S newly_added_posts_count,
       <[tweet_id := extract_post username user_id tweet_id associated_files]> rows)
  end.

Definition add_groups (username : string) (user_id : nat)
    (groups : list (string * list string)) (rows : gmap string Post.t)
  : nat * gmap string Post.t :=
  fold_left (add_group username user_id) groups (0%nat, rows).

Definition process_and_cache_user_posts (username : string) (force_rescan : bool)
    (st : Store) : outcome * Store :=
  if negb (isdir username) then (Returned 0 0, st) else
  let '(db_user, st) := ensure_user username st in
  match listdir username with
  | None => (Raised, st)
  | Some names =>
      let db_user := refresh_profile username names db_user in
      let st := commit_user db_user st in
      let posts_deleted :=
        if force_rescan then size (posts_of (User.id db_user) (posts st)) else 0%nat in
      let st :=
        if force_rescan
        then {| users := users st; posts := posts_not_of (User.id db_user) (posts st) |}
        else st in
      if negb force_rescan && negb (Nat.eqb (size (posts_of (User.id db_user) (posts st))) 0)
      then (Returned 0 0, st)
      else
        match listdir username with
        | None => (Returned 0 posts_deleted, st)
        | Some names =>
            let groups := files_by_tweet_id username names in
            let '(newly_added_posts_count, rows) :=
              add_groups username (User.id db_user) groups (posts st) in
            (Returned newly_added_posts_count posts_deleted,
             {| users := users st; posts := rows |})
        end
  end.

End Sync.

(** ** Statements of the specification *)

Section Statements.
Context `{FileSystem} `{Runtime}.


(** The path recorded for a media file of the author's directory. *)
Definition media_path (username filename : string) : string :=
  Py.replace_char "092" "/" (Py.path_join username filename).

(** A name is recognized as a media file. *)
Definition is_media (filename : string) : bool :=
  Py.endswith_any (Py.lower filename) MEDIA_EXTENSIONS.


End Statements.

(** The value of the first of [full_text], [content], [text] that is
    present in a metadata record, as the specification words the body. *)
Definition first_present_text (d : list (string * jvalue)) : option jvalue :=
  match dict_lookup "full_text" d with
  | Some v => Some v
  | None =>
      match dict_lookup "content" d with
      | Some v => Some v
      | None => dict_lookup "text" d
      end
  end.

(** The first of the three values that is true in Python's sense, and the
    value of [text] when none is. *)
Definition first_truthy_text (d : list (string * jvalue)) : jvalue :=
  match List.find truthy
          [dict_get d "full_text" JNull; dict_get d "content" JNull; dict_get d "text" JNull]
  with
  | Some v => v
  | None => dict_get d "text" JNull
  end.

(** The body taken from the lines of a caption file. *)
Definition caption_body `{Runtime} (lines : list string) : jvalue :=
  match lines with
  | [] => JNull
  | line0 :: rest =>
      match strptime (Py.strip line0) with
      | Some _ => JString (Py.strip (Py.join rest))
      | None => JString (Py.strip (Py.join lines))
      end
  end.

Section BodyStatement.
Context `{FileSystem} `{Runtime}.

(** The body as the specification words it: whenever the group's metadata
    file loads as a record in which one of the three fields is present, the
    body of the extracted post is the value of the first present one. *)
Definition body_is_first_present (username : string) (files : list string) : Prop :=
  ∀ json_file d v user_id tweet_id,
    first_endswith ".json" files = Some json_file →
    path_exists username json_file = true →
    open_json username json_file = Some (JObject d) →
    first_present_text d = Some v →
    Post.text_content (extract_post username user_id tweet_id files) = v.

End BodyStatement.

Fixpoint all_digits (s : string) : bool :=
  match s with
  | EmptyString => true
  | String c t => Py.is_digit c && all_digits t
  end.

Definition starts_with_digit (s : string) : bool :=
  match s with
  | EmptyString => false
  | String c _ => Py.is_digit c
  end.

(** Every row of [Post] refers to a row of [User] (the foreign key). *)
Definition posts_have_users (st : Store) : Prop :=
  ∀ k p, posts st !! k = Some p → ∃ u, u ∈ users st ∧ User.id u = Post.user_id p.

(** ** A runtime and archives for closed examples *)

(** The constants of [src/app.py], lines 61-63. *)
Module App.
Definition IMAGE_EXTENSIONS : list string := [".jpg"; ".jpeg"; ".png"; ".gif"; ".webp"].
Definition VIDEO_EXTENSIONS : list string := [".mp4"].
Definition MEDIA_EXTENSIONS : list string := IMAGE_EXTENSIONS ++ VIDEO_EXTENSIONS.
End App.

Module Scenario.

Definition two_digits (a b : ascii) : option Z :=
  if Py.is_digit a && Py.is_digit b
  then Some (10 * Py.digit_value a + Py.digit_value b) else None.

Definition is_leap (y : Z) : bool :=
  (y mod 4 =? 0) && (negb (y mod 100 =? 0) || (y mod 400 =? 0)).

Definition days_in_month (y m : Z) : Z :=
  if m =? 2 then (if is_leap y then 29 else 28)
  else if (m =? 4) || (m =? 6) || (m =? 9) || (m =? 11) then 30 else 31.

(** [strptime] on the fixed-width form [YYYY-MM-DD HH:MM:SS], the only
    form the examples use. *)
Definition strptime_fixed (s : string) : option datetime :=
  match s with
  | String y1 (String y2 (String y3 (String y4 (String c1
    (String m1 (String m2 (String c2
    (String d1 (String d2 (String c3
    (String h1 (String h2 (String c4
    (String n1 (String n2 (String c5
    (String s1 (String s2 EmptyString)))))))))))))))))) =>
      if Ascii.eqb c1 "-" && Ascii.eqb c2 "-" && Ascii.eqb c3 " "
         && Ascii.eqb c4 ":" && Ascii.eqb c5 ":"
      then
        match two_digits y1 y2, two_digits y3 y4, two_digits m1 m2, two_digits d1 d2,
              two_digits h1 h2, two_digits n1 n2, two_digits s1 s2 with
        | Some yh, Some yl, Some mo, Some dd, Some hh, Some mi, Some ss =>
            let yy := 100 * yh + yl in
            if (1 <=? yy) && (1 <=? mo) && (mo <=? 12) && (1 <=? dd)
               && (dd <=? days_in_month yy mo) && (hh <=? 23) && (mi <=? 59) && (ss <=? 59)
            then Some (mk_datetime yy mo dd hh mi ss 0)
            else None
        | _, _, _, _, _, _, _ => None
        end
      else None
  | _ => None
  end.

(** [fromtimestamp] in a process whose local time is UTC. *)
Definition fromtimestamp_utc (t : Q) : datetime :=
  let secs := Qfloor t in
  let micro := Qfloor ((t - inject_Z secs) * 1000000) in
  let days := secs / 86400 in
  let rem := secs mod 86400 in
  let z := days + 719468 in
  let era := z / 146097 in
  let doe := z - era * 146097 in
  let yoe := (doe - doe / 1460 + doe / 36524 - doe / 146096) / 365 in
  let doy := doe - (365 * yoe + yoe / 4 - yoe / 100) in
  let mp := (5 * doy + 2) / 153 in
  let d := doy - (153 * mp + 2) / 5 + 1 in
  let m := if mp <? 10 then mp + 3 else mp - 9 in
  let y := yoe + era * 400 + (if m <=? 2 then 1 else 0) in
  mk_datetime y m d (rem / 3600) (rem mod 3600 / 60) (rem mod 60) micro.

Definition runtime : Runtime :=
  {| strptime := strptime_fixed;
     fromtimestamp := fromtimestamp_utc;
     MEDIA_EXTENSIONS := App.MEDIA_EXTENSIONS |}.

(** An archive whose only directory is [dir], holding regular [files]:
    name, JSON content, text content, modification time. *)
Definition archive (dir : string)
    (files : list (string * (option jvalue * option string * Q))) : FileSystem :=
  let entry d f :=
    if String.eqb d dir then
      snd <$> List.find (fun e : string * (option jvalue * option string * Q) =>
                           String.eqb e.1 f) files
    else None in
  {| isdir d := String.eqb d dir;
     listdir d := if String.eqb d dir then Some (map fst files) else None;
     isfile d f := match entry d f with Some _ => true | None => false end;
     path_exists d f := match entry d f with Some _ => true | None => false end;
     open_json d f := e ← entry d f; e.1.1;
     open_text d f := e ← entry d f; e.1.2;
     getmtime d f := e ← entry d f; Some e.2 |}.

Definition empty_store : Store := {| users := []; posts := ∅ |}.

(** A row of [User] with nothing but its key, its handle and a followers
    count. *)
Definition user_with_followers (id : nat) (username : string) (followers : jvalue)
  : User.t :=
  {| User.id := id; User.username := username;
     User.name := JNull; User.nick := JNull; User.location := JNull;
     User.description := JNull; User.verified := JNull;
     User.profile_image_url := JNull; User.favourites_count := JNull;
     User.followers_count := followers; User.friends_count := JNull;
     User.listed_count := JNull; User.media_count := JNull;
     User.statuses_count := JNull |}.

(** The author [alice] is stored with 100 followers and one post; the
    newest metadata file of her directory names her and carries
    ["followers_count": null]. *)
Definition null_followers_record : jvalue :=
  JObject [("author", JObject [("nick", JString "alice"); ("followers_count", JNull)])].

Definition null_followers_archive : FileSystem :=
  archive "alice" [("111_1.json", (Some null_followers_record, None, 5%Q))].

Definition alice_100_store : Store :=
  {| users := [user_with_followers 1 "alice" (JInt 100)];
     posts := {[ "111" := empty_post "111" 1 ]} |}.

(** A metadata record whose [full_text] is present and empty. *)
Definition empty_full_text_record : list (string * jvalue) :=
  [("full_text", JString ""); ("text", JString "hello")].

Definition empty_full_text_archive : FileSystem :=
  archive "alice" [("111_1.json", (Some (JObject empty_full_text_record), None, 5%Q))].


Definition bob_store : Store :=
  {| users := [user_with_followers 1 "bob" JNull];
     posts := {[ "111" := empty_post "111" 1 ]} |}.

(** [alice] is stored with one post whose files are gone. *)
Definition stale_store : Store :=
  {| users := [user_with_followers 1 "alice" JNull];
     posts := {[ "999" := empty_post "999" 1 ]} |}.

(** The directory of the end-to-end scenario. *)
Definition alice_record : jvalue :=
  JObject [("date", JString "2020-01-01 10:00:00"); ("full_text", JString "hi")].

(** The post the scenario describes, for the author row [user_id]. *)
Definition alice_post (user_id : nat) : Post.t :=
  {| Post.id := "111"; Post.user_id := user_id;
     Post.timestamp := Some (mk_datetime 2020 1 1 10 0 0 0);
     Post.text_content := JString "hi";
     Post.media_files := ["alice/111_20200101.jpg"];
     Post.retweet_count := JNull; Post.reply_count := JNull;
     Post.favorite_count := JNull; Post.bookmark_count := JNull;
     Post.raw_json_data := Some alice_record |}.

Definition alice_archive : FileSystem :=
  archive "alice"
    [("111_20200101.json", (Some alice_record, None, 5%Q));
     ("111_20200101.jpg", (None, None, 5%Q))].

(** A group whose three timestamp sources all parse and disagree. *)
Definition three_sources_archive : FileSystem :=
  archive "alice"
    [("111_1600000000.json",
      (Some (JObject [("date", JString "2020-01-01 10:00:00")]), None, 5%Q));
     ("111_1600000000.txt",
      (None, Some ("2021-05-05 12:00:00" +:+ String "010" "caption"), 5%Q))].

End Scenario.

(** ** Further statements about the engine *)

(** The constraints of the two tables: the primary key and the unique
    handle of [User], the primary key of [Post] (a row is stored under its
    [id]) and its foreign key. *)
Definition store_consistent (st : Store) : Prop :=
  NoDup (map User.id (users st))
  ∧ NoDup (map User.username (users st))
  ∧ ∀ k p, posts st !! k = Some p →
      Post.id p = k ∧ ∃ u, u ∈ users st ∧ User.id u = Post.user_id p.

(** [c in s] for one character. *)
Fixpoint contains_char (c : ascii) (s : string) : bool :=
  match s with
  | EmptyString => false
  | String d t => Ascii.eqb d c || contains_char c t
  end.

Section EngineStatements.
Context `{FileSystem} `{Runtime}.

(** A name of the listing that the grouper files under [tweet_id]. *)
Definition tagged_with (username tweet_id filename : string) : bool :=
  isfile username filename
  && match extract_tweet_id_from_filename filename with
     | Some t => String.eqb t tweet_id
     | None => false
     end.

(** What the [try] block of lines 45-58 yields for one candidate file: the
    author record it carries when it can be loaded and names the author. *)
Definition names_author (username json_file_name : string) : option (list (string * jvalue)) :=
  match open_json username json_file_name with
  | Some data => catch (user_info_of username data) None
  | None => None
  end.

End EngineStatements.

Section MetadataStatements.
Context `{FileSystem} `{Runtime}.

(** The group has no metadata record to read: no [.json] file, a file
    that does not exist or cannot be loaded, or a loaded value that is no
    record. *)
Definition metadata_unusable (username : string) (files : list string) : Prop :=
  match first_endswith ".json" files with
  | None => True
  | Some json_file =>
      path_exists username json_file = false
      ∨ open_json username json_file = None
      ∨ ∃ v, open_json username json_file = Some v ∧ ∀ d, v ≠ JObject d
  end.

End MetadataStatements.

(** ** [src/app/cli.py] and [src/run.py] *)

(** The root folder of the archive: whether it is a directory and the
    names [os.listdir] gives for it ([None] when the call raises). The
    folder of a handle below it is read through [FileSystem]. *)
Class ArchiveRoot : Type := {
  root_isdir : bool;
  root_listdir : option (list string)
}.

(** How a sweep over the author folders ends: the two early returns, the
    totals it reports, or the exception that leaves it. *)
Inductive sweep_outcome : Type :=
  | NoRootFolder
  | NoUserFolders
  | SweepDone (total_new_posts total_deleted_posts : nat)
  | SweepRaised.

(** How [scan_user_command] ends. *)
Inductive scan_user_outcome : Type :=
  | NoUserFolder
  | ScanUserDone (new_count deleted_count : nat)
  | ScanUserRaised.

Section Callers.
Context `{FileSystem} `{Runtime} `{ArchiveRoot}.

(** The loop of [cli.py], lines 30-35, and of [run.py], lines 25-28. *)
Fixpoint scan_users (force_rescan : bool) (user_dirs : list string)
    (total_new_posts total_deleted_posts : nat) (st : Store) : sweep_outcome * Store :=
  match user_dirs with
  | [] => (SweepDone total_new_posts total_deleted_posts, st)
  | username :: rest =>
      match process_and_cache_user_posts username force_rescan st with
      | (Returned new_count deleted_count, st) =>
          scan_users force_rescan rest
            (total_new_posts + new_count) (total_deleted_posts + deleted_count) st
      | (Raised, st) => (SweepRaised, st)
      end
  end.


(** [scan_user_command], [cli.py] lines 47-64. *)
Definition scan_user_command (username : string) (force_rescan : bool) (st : Store)
  : scan_user_outcome * Store :=
  if negb (isdir username) then (NoUserFolder, st) else
  match process_and_cache_user_posts username force_rescan st with
  | (Returned new_count deleted_count, st) => (ScanUserDone new_count deleted_count, st)
  | (Raised, st) => (ScanUserRaised, st)
  end.

(** [auto_scan_all_users_job], [run.py] lines 10-30. *)
Definition auto_scan_all_users_job (st : Store) : sweep_outcome * Store :=
  if negb root_isdir then (NoRootFolder, st) else
  match root_listdir with
  | None => (SweepRaised, st)
  | Some names => scan_users false (List.filter isdir names) 0 0 st
  end.


End Callers.

(** ** [src/app/routes.py] *)

(** [os.path] is [posixpath] in this part, as in the engine. *)

Definition is_word_char (c : ascii) : bool :=
  let n := N_of_ascii c in
  (((97 <=? n) && (n <=? 122)) || ((65 <=? n) && (n <=? 90))
   || ((48 <=? n) && (n <=? 57)) || (n =? 95))%N.

Fixpoint all_word_chars (s : string) : bool :=
  match s with
  | EmptyString => true
  | String c t => is_word_char c && all_word_chars t
  end.

(** What is left of [s] after its longest prefix of word characters. *)
Fixpoint after_word_run (s : string) : string :=
  match s with
  | String c t => if is_word_char c then after_word_run t else s
  | EmptyString => EmptyString
  end.

Definition starts_with_word_char (s : string) : bool :=
  match s with
  | EmptyString => false
  | String c _ => is_word_char c
  end.

(** [re.match(r'^[a-zA-Z0-9_]+$', username) is not None]: the run of word
    characters is not empty and reaches the end of the string, or the
    newline that ends it. *)
Definition is_valid_username (username : string) : bool :=
  starts_with_word_char username
  && let rest := after_word_run username in
     Py.is_empty rest || String.eqb rest (String "010" EmptyString).

(** [s.startswith(prefix)]. *)
Fixpoint startswith (s prefix : string) : bool :=
  match prefix, s with
  | EmptyString, _ => true
  | String a p, String b t => Ascii.eqb a b && startswith t p
  | String _ _, EmptyString => false
  end.

(** [s.split(sep)] for a separator of one character. *)
Fixpoint split_on (sep : ascii) (s : string) : list string :=
  match s with
  | EmptyString => [EmptyString]
  | String c t =>
      if Ascii.eqb c sep then EmptyString :: split_on sep t
      else match split_on sep t with
           | [] => [String c EmptyString]
           | h :: r => String c h :: r
           end
  end.

(** [sep.join(l)]. *)
Fixpoint join_with (sep : string) (l : list string) : string :=
  match l with
  | [] => EmptyString
  | [x] => x
  | x :: r => x +:+ sep +:+ join_with sep r
  end.

Definition is_nil {A} (l : list A) : bool :=
  match l with [] => true | _ :: _ => false end.

(** One turn of the loop of [posixpath.normpath] over the components. *)
Definition normpath_step (initial_slashes : bool) (new_comps : list string) (comp : string)
  : list string :=
  if String.eqb comp "" || String.eqb comp "." then new_comps
  else if negb (String.eqb comp "..")
          || (negb initial_slashes && is_nil new_comps)
          || (negb (is_nil new_comps) && String.eqb (List.last new_comps "") "..")
  then new_comps ++ [comp]
  else if negb (is_nil new_comps) then removelast new_comps
  else new_comps.

(** [posixpath.normpath(path)]. *)
Definition normpath (path : string) : string :=
  if Py.is_empty path then "." else
  let initial_slashes : nat :=
    if startswith path "/" then
      (if startswith path "//" && negb (startswith path "///") then 2 else 1)%nat
    else 0%nat in
  let comps := split_on "/" path in
  let new_comps := fold_left (normpath_step (negb (Nat.eqb initial_slashes 0))) comps [] in
  let path := join_with "/" new_comps in
  let path := join_with "" (repeat "/" initial_slashes) +:+ path in
  if Py.is_empty path then "." else path.

(** A component of a path that names an entry of its directory. *)
Definition proper_component (c : string) : Prop :=
  c ≠ "" ∧ c ≠ "." ∧ c ≠ ".." ∧ contains_char "/" c = false.

(** The files the web process sees, by full path. *)
Class HostFiles : Type := {
  ROOT_DATA_FOLDER : string;
  os_path_isdir : string → bool;
  os_path_exists : string → bool
}.

(** What [serve_media] does: [abort(status)], or the call of
    [send_from_directory]. *)
Inductive media_response : Type :=
  | MediaAbort (status : nat)
  | SendFromDirectory (directory path : string).

(** [serve_media], lines 181-207. *)
Definition serve_media `{HostFiles} (filename : string) : media_response :=
  let safe_filename := normpath filename in
  if startswith safe_filename ".." || startswith safe_filename "/" then MediaAbort 400 else
  let parts := split_on "/" safe_filename in
  if (length parts <? 2)%nat then MediaAbort 404 else
  let user_dirname := List.hd "" parts in
  let media_basename := join_with "/" (List.tl parts) in
  let actual_user_dir := Py.path_join ROOT_DATA_FOLDER user_dirname in
  let full_file_path := Py.path_join actual_user_dir media_basename in
  if os_path_isdir actual_user_dir && os_path_exists full_file_path
  then SendFromDirectory actual_user_dir media_basename
  else MediaAbort 404.

(** What a page view hands back: [abort(status)], the values given to the
    template, or the exception that leaves the view. *)
Inductive view (A : Type) : Type :=
  | Abort (status : nat)
  | Rendered (a : A)
  | ViewRaised.
Arguments Abort {A} status.
Arguments Rendered {A} a.
Arguments ViewRaised {A}.

(** [Post.query.filter_by(user_id=...).order_by(Post.id.desc()).all()]:
    the rows of the author by descending primary key. *)
Definition posts_by_id_desc (user_id : nat) (rows : gmap string Post.t) : list Post.t :=
  omap (fun k => rows !! k) (sorted_reverse (map fst (map_to_list (posts_of user_id rows)))).

Section Views.
Context `{FileSystem} `{Runtime}.

(** [user_posts_all], lines 146-177: the author row and all posts handed
    to the template. *)
Definition user_posts_all (username : string) (st : Store)
  : view (User.t * list Post.t) * Store :=
  if negb (is_valid_username username) then (Abort 400, st) else
  if negb (isdir username) then (Abort 404, st) else
  let db_user := query_user st username in
  let unprocessed :=
    match db_user with
    | None => true
    | Some u => Nat.eqb (size (posts_of (User.id u) (posts st))) 0
    end in
  let '(outcome, st) :=
    if unprocessed then process_and_cache_user_posts username false st
    else (Returned 0 0, st) in
  match outcome with
  | Raised => (ViewRaised, st)
  | Returned _ _ =>
      let db_user := if unprocessed then query_user st username else db_user in
      match db_user with
      | None => (Abort 500, st)
      | Some u => (Rendered (u, posts_by_id_desc (User.id u) (posts st)), st)
      end
  end.

End Views.

(** [datetime.now() - dt] is a [timedelta], which Python keeps normalized:
    [0 <= seconds < 86400]. *)
Record timedelta : Type := mk_timedelta {
  days : Z; seconds : Z; microseconds : Z
}.

Class Clock : Type := {
  now_minus : datetime → timedelta
}.

(** [relative_time_filter], lines 16-36. *)
Definition relative_time_filter `{Clock} (dt : option datetime) : string :=
  match dt with
  | None => "时间未知"
  | Some dt =>
      let diff := now_minus dt in
      if 365 <? days diff then pretty (days diff / 365) +:+ " 年前"
      else if 30 <? days diff then pretty (days diff / 30) +:+ " 月前"
      else if 3600 <? seconds diff then pretty (seconds diff / 3600) +:+ " 小时前"
      else if 60 <? seconds diff then pretty (seconds diff / 60) +:+ " 分钟前"
      else "刚刚"
  end.

(** ** Archives, stores and hosts for further closed examples *)

Module Examples.

(** An archive of several author folders, each a list of regular files:
    name, JSON content, text content, modification time. *)
Definition library
    (dirs : list (string * list (string * (option jvalue * option string * Q))))
  : FileSystem :=
  let files_of d :=
    snd <$> List.find
              (fun e : string * list (string * (option jvalue * option string * Q)) =>
                 String.eqb e.1 d) dirs in
  let entry d f :=
    fs ← files_of d;
    snd <$> List.find (fun e : string * (option jvalue * option string * Q) =>
                         String.eqb e.1 f) fs in
  {| isdir d := match files_of d with Some _ => true | None => false end;
     listdir d := map fst <$> files_of d;
     isfile d f := match entry d f with Some _ => true | None => false end;
     path_exists d f := match entry d f with Some _ => true | None => false end;
     open_json d f := e ← entry d f; e.1.1;
     open_text d f := e ← entry d f; e.1.2;
     getmtime d f := e ← entry d f; Some e.2 |}.

(** The root folder that holds exactly the given names. *)
Definition root_of (names : list string) : ArchiveRoot :=
  {| root_isdir := true; root_listdir := Some names |}.


(** A host on which exactly the given directories and files exist. *)
Definition host (root : string) (dirs files : list string) : HostFiles :=
  {| ROOT_DATA_FOLDER := root;
     os_path_isdir p := existsb (String.eqb p) dirs;
     os_path_exists p := existsb (String.eqb p) files |}.

(** A clock for which every timestamp lies [diff] in the past. *)
Definition clock (diff : timedelta) : Clock := {| now_minus _ := diff |}.

(** Two authors: [alice] with the files of the end-to-end scenario, [bob]
    with one picture. *)
Definition two_authors : FileSystem :=
  library
    [("alice",
      [("111_20200101.json", (Some Scenario.alice_record, None, 5%Q));
       ("111_20200101.jpg", (None, None, 5%Q))]);
     ("bob", [("222_1.png", (None, None, 1600000000%Q))])].

(** A directory whose two metadata files both name [alice]; the record of
    the file with the greater name carries the larger follower count. *)
Definition older_record : list (string * jvalue) :=
  [("nick", JString "alice"); ("followers_count", JInt 10)].
Definition newer_record : list (string * jvalue) :=
  [("name", JString "alice"); ("followers_count", JInt 20)].

Definition two_records : FileSystem :=
  library
    [("alice",
      [("111_1.json", (Some (JObject [("author", JObject older_record)]), None, 5%Q));
       ("222_1.json", (Some (JObject [("user", JObject newer_record)]), None, 5%Q))])].

(** A group whose metadata file holds a JSON list and whose caption file
    begins with a timestamp line. *)
Definition list_metadata : FileSystem :=
  library
    [("alice",
      [("111_1.json", (Some (JArray [JInt 1]), None, 5%Q));
       ("111_1.txt",
        (None, Some ("2021-05-05 12:00:00" +:+ String "010" "the caption"), 5%Q))])].


(** [fs] with one more directory, [dir], whose listing fails. *)
Definition with_unlistable (dir : string) (fs : FileSystem) : FileSystem :=
  {| isdir d := String.eqb d dir || @isdir fs d;
     listdir d := if String.eqb d dir then None else @listdir fs d;
     isfile := @isfile fs;
     path_exists := @path_exists fs;
     open_json := @open_json fs;
     open_text := @open_text fs;
     getmtime := @getmtime fs |}.

(** A metadata file of [alice]'s folder for a post of [bob] that [alice]
    reposted: the [author] record is [bob]'s, the [user] record hers. *)
Definition repost_record : list (string * jvalue) :=
  [("author", JObject [("nick", JString "bob")]);
   ("user", JObject [("nick", JString "alice")])].

End Examples.

(** * Properties *)

(** ** Strings *)

Lemma append_cons (c : ascii) (s t : string) : String c s +:+ t = String c (s +:+ t).
Proof. reflexivity. Qed.

Lemma append_empty_l (s : string) : "" +:+ s = s.
Proof. reflexivity. Qed.

Lemma eqb_refl_true (s : string) : String.eqb s s = true.
Proof. apply String.eqb_eq. reflexivity. Qed.

Lemma digit_run_all_digits (s : string) : all_digits (Py.digit_run s) = true.
Proof.
  induction s as [|c t IH]; simpl; [done|].
  destruct (Py.is_digit c) eqn:Hc; simpl; [|done].
  by rewrite Hc, IH.
Qed.

Lemma digit_run_split (s : string) :
  ∃ tail, s = Py.digit_run s +:+ tail ∧ starts_with_digit tail = false.
Proof.
  induction s as [|c t [tail [Heq Htail]]].
  - by exists "".
  - simpl. destruct (Py.is_digit c) eqn:Hc.
    + exists tail. split; [|done]. rewrite append_cons. by rewrite <- Heq.
    + exists (String c t). by split.
Qed.

Lemma digit_run_nonempty (s : string) :
  starts_with_digit s = true → Py.is_empty (Py.digit_run s) = false.
Proof. destruct s as [|c t]; simpl; [done|]. by intros ->. Qed.

Lemma digit_run_empty (s : string) :
  starts_with_digit s = false → Py.digit_run s = "".
Proof. destruct s as [|c t]; simpl; [done|]. by intros ->. Qed.

Lemma endswith_append (a b : string) : Py.endswith (a +:+ b) b = true.
Proof.
  induction a as [|c a IH].
  - rewrite append_empty_l. destruct b; simpl; rewrite ?eqb_refl_true; try done.
    by rewrite Ascii.eqb_refl.
  - rewrite append_cons. simpl. rewrite IH. apply orb_true_r.
Qed.

Lemma lower_char_idempotent (c : ascii) : Py.lower_char (Py.lower_char c) = Py.lower_char c.
Proof. destruct c as [[] [] [] [] [] [] [] []]; reflexivity. Qed.

Lemma lower_idempotent (s : string) : Py.lower (Py.lower s) = Py.lower s.
Proof. induction s as [|c t IH]; simpl; [done|]. by rewrite lower_char_idempotent, IH. Qed.

Lemma lower_append (a b : string) : Py.lower (a +:+ b) = Py.lower a +:+ Py.lower b.
Proof. induction a as [|c a IH]; [done|]. rewrite append_cons. simpl. by rewrite IH. Qed.

(** ** The file grouper *)

Lemma group_lookup_append (k tweet_id filename : string) (groups : list (string * list string)) :
  group_lookup k (group_append tweet_id filename groups) =
    if String.eqb tweet_id k
    then Some (default [] (group_lookup tweet_id groups) ++ [filename])
    else group_lookup k groups.
Proof.
  induction groups as [|[k' fs] r IH]; simpl.
  - destruct (String.eqb_spec tweet_id k) as [->|Hne]; [done|done].
  - destruct (String.eqb_spec k' tweet_id) as [->|Hne]; simpl.
    + destruct (String.eqb_spec tweet_id k) as [->|Hne]; [done|done].
    + destruct (String.eqb_spec k' k) as [->|Hne'].
      * destruct (String.eqb_spec tweet_id k) as [->|_]; [done|done].
      * apply IH.
Qed.

Section Grouper.
Context `{FileSystem}.

Lemma group_step_keeps username groups filename k fs f :
  group_lookup k groups = Some fs → f ∈ fs →
  ∃ fs', group_lookup k (group_step username groups filename) = Some fs' ∧ f ∈ fs'.
Proof.
  intros Hk Hf. unfold group_step.
  destruct (isfile username filename); [|eauto].
  destruct (extract_tweet_id_from_filename filename) as [t|]; [|eauto].
  rewrite group_lookup_append.
  destruct (String.eqb_spec t k) as [->|_]; [|eauto].
  rewrite Hk. simpl. eexists. split; [done|]. apply elem_of_app. by left.
Qed.

Lemma group_fold_keeps username names groups k fs f :
  group_lookup k groups = Some fs → f ∈ fs →
  ∃ fs', group_lookup k (fold_left (group_step username) names groups) = Some fs' ∧ f ∈ fs'.
Proof.
  revert groups fs. induction names as [|n names IH]; intros groups fs Hk Hf; simpl; [eauto|].
  destruct (group_step_keeps username groups n k fs f Hk Hf) as (fs' & Hk' & Hf'). eauto.
Qed.

Lemma group_fold_places username names groups filename tweet_id :
  filename ∈ names → isfile username filename = true →
  extract_tweet_id_from_filename filename = Some tweet_id →
  ∃ fs, group_lookup tweet_id (fold_left (group_step username) names groups) = Some fs
        ∧ filename ∈ fs.
Proof.
  intros Hin Hfile Hid. revert groups.
  induction names as [|n names IH]; intros groups; [by apply elem_of_nil in Hin|].
  apply elem_of_cons in Hin as [<-|Hin]; simpl; [|by apply IH].
  apply (group_fold_keeps username names _ tweet_id
           (default [] (group_lookup tweet_id groups) ++ [filename])).
  - unfold group_step. rewrite Hfile, Hid, group_lookup_append. by rewrite eqb_refl_true.
  - apply elem_of_app. right. by apply list_elem_of_singleton.
Qed.

Lemma group_fold_origin username names groups k fs f :
  group_lookup k (fold_left (group_step username) names groups) = Some fs → f ∈ fs →
  (∃ fs0, group_lookup k groups = Some fs0 ∧ f ∈ fs0)
  ∨ (f ∈ names ∧ isfile username f = true ∧ extract_tweet_id_from_filename f = Some k).
Proof.
  revert groups. induction names as [|n names IH]; intros groups Hk Hf; simpl in Hk; [eauto|].
  destruct (IH _ Hk Hf) as [(fs0 & Hk0 & Hf0)|(Hin & Hfile & Hid)].
  - unfold group_step in Hk0.
    destruct (isfile username n) eqn:Hfile; [|eauto].
    destruct (extract_tweet_id_from_filename n) as [t|] eqn:Hid; [|eauto].
    rewrite group_lookup_append in Hk0.
    destruct (String.eqb_spec t k) as [->|_]; [|eauto].
    injection Hk0 as <-. apply elem_of_app in Hf0 as [Hf0|Hf0].
    + destruct (group_lookup k groups) as [fs1|] eqn:Hk1; simpl in Hf0; [eauto|].
      by apply elem_of_nil in Hf0.
    + apply list_elem_of_singleton in Hf0 as ->. right.
      split; [apply elem_of_cons; by left|done].
  - right. split; [apply elem_of_cons; by right|done].
Qed.

End Grouper.

(** C5. A name that begins with a digit is tagged with its maximal leading
    run of decimal digits (the name is that run followed by a tail that
    does not begin with a digit) and, as a regular file of the listing, is
    placed in the group of that identifier; a name that does not begin with
    a digit is given no identifier and appears in no group. *)
Theorem grouping_completeness `{FileSystem} (username : string) (names : list string)
    (filename : string) :
  (starts_with_digit filename = true →
     ∃ digits tail,
       filename = digits +:+ tail ∧ all_digits digits = true ∧ digits ≠ ""
       ∧ starts_with_digit tail = false
       ∧ extract_tweet_id_from_filename filename = Some digits
       ∧ (filename ∈ names → isfile username filename = true →
          ∃ group, group_lookup digits (files_by_tweet_id username names) = Some group
                   ∧ filename ∈ group))
  ∧ (starts_with_digit filename = false →
     extract_tweet_id_from_filename filename = None
     ∧ ∀ tweet_id group,
         group_lookup tweet_id (files_by_tweet_id username names) = Some group →
         filename ∉ group).
Proof.
  split; intros Hd.
  - destruct (digit_run_split filename) as (tail & Heq & Htail).
    pose proof (digit_run_nonempty filename Hd) as Hne.
    assert (Hid : extract_tweet_id_from_filename filename = Some (Py.digit_run filename)).
    { unfold extract_tweet_id_from_filename, re_match_leading_digits. by rewrite Hne. }
    exists (Py.digit_run filename), tail.
    split; [done|]. split; [apply digit_run_all_digits|].
    split; [intros Hempty; by rewrite Hempty in Hne|].
    split; [done|]. split; [done|].
    intros Hin Hfile. by apply group_fold_places.
  - assert (Hid : extract_tweet_id_from_filename filename = None).
    { unfold extract_tweet_id_from_filename, re_match_leading_digits.
      by rewrite (digit_run_empty filename Hd). }
    split; [done|]. intros tweet_id group Hk Hf.
    destruct (group_fold_origin username names [] tweet_id group filename Hk Hf)
      as [(fs0 & Hk0 & _)|(_ & _ & Hid')]; [done|congruence].
Qed.

(** The tagger and the grouper on a directory of two files. *)
Lemma grouping_completeness_witness :
  let fs := Scenario.archive "alice"
              [("111_20200101.jpg", (None, None, 5%Q)); ("notes.txt", (None, Some "x", 5%Q))] in
  (∃ digits tail,
     "111_20200101.jpg" = digits +:+ tail ∧ all_digits digits = true ∧ digits ≠ ""
     ∧ starts_with_digit tail = false
     ∧ extract_tweet_id_from_filename "111_20200101.jpg" = Some digits
     ∧ ∃ group,
         group_lookup digits
           (@files_by_tweet_id fs "alice" ["111_20200101.jpg"; "notes.txt"]) = Some group
         ∧ "111_20200101.jpg" ∈ group)
  ∧ extract_tweet_id_from_filename "notes.txt" = None.
Proof.
  intros fs. split.
  - destruct (@grouping_completeness fs "alice" ["111_20200101.jpg"; "notes.txt"]
                "111_20200101.jpg") as [Hdigit _].
    destruct (Hdigit eq_refl) as (digits & tail & H1 & H2 & H3 & H4 & H5 & H6).
    exists digits, tail. repeat (split; [assumption|]).
    apply H6; [apply elem_of_cons; by left|reflexivity].
  - destruct (@grouping_completeness fs "alice" ["111_20200101.jpg"; "notes.txt"]
                "notes.txt") as [_ Hnodigit].
    exact (proj1 (Hnodigit eq_refl)).
Defined.

(** ** The sync controller: an absent directory *)

(** C7. When the author's directory does not exist, the call returns
    (0, 0) for either value of [force_rescan] and the store is the one it
    was given: no author row is created or updated, no post added or
    deleted. *)
Theorem absent_directory_is_zero_zero `{FileSystem} `{Runtime} (username : string)
    (force_rescan : bool) (st : Store) :
  isdir username = false →
  process_and_cache_user_posts username force_rescan st = (Returned 0 0, st).
Proof. intros Hdir. unfold process_and_cache_user_posts. by rewrite Hdir. Qed.

(** A forced call for a handle that has no directory. *)
Lemma absent_directory_is_zero_zero_witness :
  @isdir (Scenario.archive "alice" []) "bob" = false
  ∧ @process_and_cache_user_posts (Scenario.archive "alice" []) Scenario.runtime
      "bob" true Scenario.empty_store = (Returned 0 0, Scenario.empty_store).
Proof.
  split; [reflexivity|].
  apply (@absent_directory_is_zero_zero (Scenario.archive "alice" []) Scenario.runtime).
  reflexivity.
Defined.

(** ** Media recognition *)

Section Media.
Context `{FileSystem} `{Runtime}.

Lemma media_fold username files media :
  fold_left (media_step username) files media
  = media ++ map (media_path username) (List.filter is_media files).
Proof.
  revert media. induction files as [|f files IH]; intros media; simpl.
  - by rewrite app_nil_r.
  - rewrite IH. unfold media_step, is_media.
    destruct (Py.endswith_any (Py.lower f) MEDIA_EXTENSIONS); simpl; [|done].
    by rewrite <- app_assoc.
Qed.

Lemma media_paths_filter username files :
  media_paths username files = map (media_path username) (List.filter is_media files).
Proof. unfold media_paths. by rewrite media_fold. Qed.

Lemma extract_post_media username user_id tweet_id files :
  Post.media_files (extract_post username user_id tweet_id files)
  = media_paths username files.
Proof. reflexivity. Qed.

(** C10. The media paths of a post are the paths of exactly those names of
    its group whose lowercased form ends with a recognized extension, in
    the order of the group; recognition does not depend on the case of the
    name, so a name ending in any case variant of a recognized lowercase
    extension (such as [.JPG] for [.jpg]) is recorded like its lowercase
    counterpart. *)
Theorem media_recognition_ignores_case (username : string) (user_id : nat)
    (tweet_id : string) (files : list string) :
  Post.media_files (extract_post username user_id tweet_id files)
    = map (media_path username)
          (List.filter (fun f => Py.endswith_any (Py.lower f) MEDIA_EXTENSIONS) files)
  ∧ (∀ f, f ∈ files →
       (Py.endswith_any (Py.lower f) MEDIA_EXTENSIONS = true →
        media_path username f ∈ Post.media_files (extract_post username user_id tweet_id files)))
  ∧ (∀ p, p ∈ Post.media_files (extract_post username user_id tweet_id files) →
       ∃ f, f ∈ files ∧ Py.endswith_any (Py.lower f) MEDIA_EXTENSIONS = true
            ∧ p = media_path username f)
  ∧ (∀ f, is_media (Py.lower f) = is_media f)
  ∧ (∀ stem ext ext', ext ∈ MEDIA_EXTENSIONS → Py.lower ext' = ext →
       is_media (stem +:+ ext') = true).
Proof.
  rewrite extract_post_media, media_paths_filter.
  split; [done|]. split; [|split; [|split]].
  - intros f Hf Hm. apply list_elem_of_fmap. exists f. split; [done|].
    apply list_elem_of_In, filter_In. split; [by apply list_elem_of_In|done].
  - intros p Hp. apply list_elem_of_fmap in Hp as (f & -> & Hf).
    apply list_elem_of_In, filter_In in Hf as [Hf Hm].
    exists f. split; [by apply list_elem_of_In|done].
  - intros f. unfold is_media. by rewrite lower_idempotent.
  - intros stem ext ext' Hext Hlow. unfold is_media, Py.endswith_any.
    apply existsb_exists. exists ext. split; [by apply list_elem_of_In|].
    rewrite lower_append, Hlow. apply endswith_append.
Qed.

End Media.

(** An upper-case [.JPG] beside a metadata file, with the extensions of
    [src/app.py]. *)
Lemma media_recognition_ignores_case_witness :
  let fs := Scenario.archive "alice" [] in
  (".jpg" ∈ @MEDIA_EXTENSIONS Scenario.runtime ∧ Py.lower ".JPG" = ".jpg")
  ∧ @is_media Scenario.runtime "111_20200101.JPG" = true
  ∧ @Post.media_files
      (@extract_post fs Scenario.runtime "alice" 1 "111" ["111_20200101.JPG"; "111_20200101.json"])
    = ["alice/111_20200101.JPG"].
Proof.
  intros fs.
  pose proof (@media_recognition_ignores_case fs Scenario.runtime "alice" 1 "111"
                ["111_20200101.JPG"; "111_20200101.json"]) as (Hlist & _ & _ & _ & Hcase).
  assert (Hin : ".jpg" ∈ @MEDIA_EXTENSIONS Scenario.runtime) by (apply elem_of_cons; by left).
  split; [split; [exact Hin|reflexivity]|].
  split; [exact (Hcase "111_20200101" ".jpg" ".JPG" Hin eq_refl)|].
  rewrite Hlist. reflexivity.
Defined.

(** ** The timestamp resolver *)

Section ResolverFacts.
Context `{FileSystem} `{Runtime}.

Lemma truthy_nonempty_string (s : string) : s ≠ "" → truthy (JString s) = true.
Proof. destruct s; [done|reflexivity]. Qed.

Lemma timestamp_from_json_date user_folder_path files json_file d s date :
  first_endswith ".json" files = Some json_file →
  open_json user_folder_path json_file = Some (JObject d) →
  dict_lookup "date" d = Some (JString s) →
  s ≠ "" →
  strptime s = Some date →
  timestamp_from_json user_folder_path files = Some date.
Proof.
  intros Hfile Hopen Hdate Hs Hparse. unfold timestamp_from_json.
  rewrite Hfile, Hopen. simpl. unfold dict_get. rewrite Hdate.
  by rewrite (truthy_nonempty_string s Hs).
Qed.

Lemma timestamp_from_filename_accepts filename date :
  timestamp_from_filename filename = Some date →
  ∃ ts_str,
    re_search_digits_9_11 (Py.splitext_root filename) = Some ts_str
    ∧ 946684800 ≤ Py.int ts_str < 2524608000
    ∧ date = fromtimestamp (inject_Z (Py.int ts_str)).
Proof.
  unfold timestamp_from_filename.
  destruct (re_search_digits_9_11 (Py.splitext_root filename)) as [ts_str|]; [|done].
  destruct (946684800 <=? Py.int ts_str) eqn:Hlo; [|done].
  destruct (Py.int ts_str <? 2524608000) eqn:Hhi; [|done].
  simpl. intros [= <-]. exists ts_str. split; [done|]. split; [lia|done].
Qed.

Lemma timestamp_from_filename_below_floor filename ts_str :
  re_search_digits_9_11 (Py.splitext_root filename) = Some ts_str →
  Py.int ts_str < 946684800 →
  timestamp_from_filename filename = None.
Proof.
  intros Hsearch Hlow. unfold timestamp_from_filename. rewrite Hsearch.
  destruct (946684800 <=? Py.int ts_str) eqn:Hlo; [lia|done].
Qed.

Lemma timestamp_from_filename_no_match filename :
  re_search_digits_9_11 (Py.splitext_root filename) = None →
  timestamp_from_filename filename = None.
Proof. intros Hsearch. unfold timestamp_from_filename. by rewrite Hsearch. Qed.

Lemma timestamp_from_filenames_none files :
  (∀ f, f ∈ files → timestamp_from_filename f = None) →
  timestamp_from_filenames files = None.
Proof.
  induction files as [|f files IH]; intros Hall; simpl; [done|].
  rewrite (Hall f) by (apply elem_of_cons; by left).
  apply IH. intros g Hg. apply Hall, elem_of_cons. by right.
Qed.

(** C3. When the group's metadata file carries a [date] string that
    parses, the resolved timestamp is that value, whatever the caption file
    and the file names hold; and the chain stops at the first source that
    yields a value: the caption's first line when the metadata yields none,
    then the first accepted file-name epoch, then the modification time. *)
Theorem timestamp_priority (post_id user_folder_path : string) (files : list string) :
  (∀ json_file d s date,
     first_endswith ".json" files = Some json_file →
     open_json user_folder_path json_file = Some (JObject d) →
     dict_lookup "date" d = Some (JString s) →
     s ≠ "" →
     strptime s = Some date →
     parse_timestamp post_id user_folder_path files = Some date)
  ∧ (∀ txt_file content date,
       timestamp_from_json user_folder_path files = None →
       first_endswith ".txt" files = Some txt_file →
       open_text user_folder_path txt_file = Some content →
       strptime (Py.strip (Py.readline content)) = Some date →
       parse_timestamp post_id user_folder_path files = Some date)
  ∧ (∀ date,
       timestamp_from_json user_folder_path files = None →
       timestamp_from_txt user_folder_path files = None →
       timestamp_from_filenames files = Some date →
       parse_timestamp post_id user_folder_path files = Some date)
  ∧ (timestamp_from_json user_folder_path files = None →
     timestamp_from_txt user_folder_path files = None →
     timestamp_from_filenames files = None →
     parse_timestamp post_id user_folder_path files
       = timestamp_from_mtime user_folder_path files).
Proof.
  split; [|split; [|split]].
  - intros json_file d s date Hfile Hopen Hdate Hs Hparse. unfold parse_timestamp.
    by rewrite (timestamp_from_json_date _ _ _ _ _ _ Hfile Hopen Hdate Hs Hparse).
  - intros txt_file content date Hjson Hfile Hopen Hparse. unfold parse_timestamp.
    rewrite Hjson. unfold timestamp_from_txt. by rewrite Hfile, Hopen, Hparse.
  - intros date Hjson Htxt Hname. unfold parse_timestamp. by rewrite Hjson, Htxt, Hname.
  - intros Hjson Htxt Hname. unfold parse_timestamp. by rewrite Hjson, Htxt, Hname.
Qed.

(** C9. A file-name digit run whose value is below 946684800 is rejected,
    only values in [946684800, 2524608000) are accepted, and when neither
    the metadata nor the caption yields a timestamp and every matched run
    of the group is below the floor, the resolver answers with the
    modification-time source; the run [0000000001] has value 1. *)
Theorem epoch_bounds (post_id user_folder_path : string) (files : list string) :
  (∀ filename ts_str,
     re_search_digits_9_11 (Py.splitext_root filename) = Some ts_str →
     Py.int ts_str < 946684800 →
     timestamp_from_filename filename = None)
  ∧ (∀ filename date,
       timestamp_from_filename filename = Some date →
       ∃ ts_str,
         re_search_digits_9_11 (Py.splitext_root filename) = Some ts_str
         ∧ 946684800 ≤ Py.int ts_str < 2524608000
         ∧ date = fromtimestamp (inject_Z (Py.int ts_str)))
  ∧ (∀ filename ts_str,
       re_search_digits_9_11 (Py.splitext_root filename) = Some ts_str →
       946684800 ≤ Py.int ts_str < 2524608000 →
       timestamp_from_filename filename = Some (fromtimestamp (inject_Z (Py.int ts_str))))
  ∧ (timestamp_from_json user_folder_path files = None →
     timestamp_from_txt user_folder_path files = None →
     (∀ f ts_str, f ∈ files →
        re_search_digits_9_11 (Py.splitext_root f) = Some ts_str →
        Py.int ts_str < 946684800) →
     parse_timestamp post_id user_folder_path files
       = timestamp_from_mtime user_folder_path files)
  ∧ re_search_digits_9_11 (Py.splitext_root "0000000001.jpg") = Some "0000000001"
  ∧ Py.int "0000000001" = 1.
Proof.
  split; [exact timestamp_from_filename_below_floor|].
  split; [exact timestamp_from_filename_accepts|].
  split; [|split; [|split; reflexivity]].
  - intros filename ts_str Hsearch [Hlo Hhi]. unfold timestamp_from_filename.
    rewrite Hsearch.
    destruct (946684800 <=? Py.int ts_str) eqn:Hlo'; [|lia].
    destruct (Py.int ts_str <? 2524608000) eqn:Hhi'; [done|lia].
  - intros Hjson Htxt Hlow. unfold parse_timestamp. rewrite Hjson, Htxt.
    rewrite timestamp_from_filenames_none; [done|].
    intros f Hf.
    destruct (re_search_digits_9_11 (Py.splitext_root f)) as [ts_str|] eqn:Hsearch.
    + apply (timestamp_from_filename_below_floor f ts_str Hsearch). by apply (Hlow f).
    + by apply timestamp_from_filename_no_match.
Qed.

End ResolverFacts.

(** A group whose three sources parse to three different dates. *)
Lemma timestamp_priority_witness :
  let fs := Scenario.three_sources_archive in
  let files := ["111_1600000000.json"; "111_1600000000.txt"] in
  (first_endswith ".json" files = Some "111_1600000000.json"
   ∧ @open_json fs "alice" "111_1600000000.json"
       = Some (JObject [("date", JString "2020-01-01 10:00:00")])
   ∧ dict_lookup "date" [("date", JString "2020-01-01 10:00:00")]
       = Some (JString "2020-01-01 10:00:00")
   ∧ "2020-01-01 10:00:00" ≠ ""
   ∧ @strptime Scenario.runtime "2020-01-01 10:00:00"
       = Some (mk_datetime 2020 1 1 10 0 0 0))
  ∧ @timestamp_from_txt fs Scenario.runtime "alice" files
      = Some (mk_datetime 2021 5 5 12 0 0 0)
  ∧ @timestamp_from_filenames Scenario.runtime files
      = Some (mk_datetime 2020 9 13 12 26 40 0)
  ∧ @parse_timestamp fs Scenario.runtime "111" "alice" files
      = Some (mk_datetime 2020 1 1 10 0 0 0).
Proof.
  intros fs files.
  assert (Hne : "2020-01-01 10:00:00" ≠ "") by discriminate.
  split; [repeat split; try reflexivity; exact Hne|].
  split; [reflexivity|]. split; [reflexivity|].
  apply (proj1 (@timestamp_priority fs Scenario.runtime "111" "alice" files)
           "111_1600000000.json" [("date", JString "2020-01-01 10:00:00")]
           "2020-01-01 10:00:00" (mk_datetime 2020 1 1 10 0 0 0));
    [reflexivity|reflexivity|reflexivity|exact Hne|reflexivity].
Defined.

(** The run [0000000001] alone: the modification time is used. *)
Lemma epoch_bounds_witness :
  let fs := Scenario.archive "alice" [("0000000001.jpg", (None, None, 1600000000%Q))] in
  let files := ["0000000001.jpg"] in
  (@timestamp_from_json fs Scenario.runtime "alice" files = None
   ∧ @timestamp_from_txt fs Scenario.runtime "alice" files = None
   ∧ Py.int "0000000001" < 946684800)
  ∧ @timestamp_from_filename Scenario.runtime "0000000001.jpg" = None
  ∧ @parse_timestamp fs Scenario.runtime "0000000001" "alice" files
      = Some (Scenario.fromtimestamp_utc 1600000000%Q).
Proof.
  intros fs files.
  pose proof (@epoch_bounds fs Scenario.runtime "0000000001" "alice" files)
    as (Hreject & _ & _ & Hfall & Hsearch & Hint).
  assert (Hlow : Py.int "0000000001" < 946684800) by (rewrite Hint; lia).
  split; [split; [reflexivity|split; [reflexivity|exact Hlow]]|].
  split; [exact (Hreject "0000000001.jpg" "0000000001" Hsearch Hlow)|].
  rewrite Hfall; [reflexivity|reflexivity|reflexivity|].
  intros f ts_str Hf Hs. apply list_elem_of_singleton in Hf. subst f.
  rewrite Hsearch in Hs. injection Hs as <-. exact Hlow.
Defined.

(** ** The profile merge *)

Lemma update_user_fields_absent (db_user : User.t) (d : list (string * jvalue)) :
  dict_lookup "followers_count" d = None →
  User.followers_count (update_user_fields db_user d) = User.followers_count db_user.
Proof. intros Habsent. simpl. unfold dict_get. by rewrite Habsent. Qed.

Lemma update_user_fields_present (db_user : User.t) (d : list (string * jvalue)) (v : jvalue) :
  dict_lookup "followers_count" d = Some v →
  User.followers_count (update_user_fields db_user d) = v.
Proof. intros Hpresent. simpl. unfold dict_get. by rewrite Hpresent. Qed.

Lemma update_user_fields_nothing (db_user : User.t) : update_user_fields db_user [] = db_user.
Proof. by destruct db_user. Qed.

(** C6. The merge of lines 61-72 on a source that names the author and
    carries ["followers_count": null]: the stored count 100 is replaced by
    [None], although the source provides no value for it. *)
Theorem profile_merge_clears_on_null :
  User.followers_count
    (update_user_fields (Scenario.user_with_followers 1 "alice" (JInt 100))
       [("nick", JString "alice"); ("followers_count", JNull)]) = JNull
  ∧ ∃ st',
      @process_and_cache_user_posts Scenario.null_followers_archive Scenario.runtime
        "alice" false Scenario.alice_100_store = (Returned 0 0, st')
      ∧ User.followers_count <$> query_user Scenario.alice_100_store "alice"
          = Some (JInt 100)
      ∧ User.followers_count <$> query_user st' "alice" = Some JNull.
Proof.
  split; [reflexivity|].
  eexists. split; [vm_compute; reflexivity|]. split; reflexivity.
Qed.

(** ** The body of a post *)

Section Body.
Context `{FileSystem} `{Runtime}.

Lemma or_chain_first_truthy (d : list (string * jvalue)) :
  py_or (py_or (dict_get d "full_text" JNull) (dict_get d "content" JNull))
        (dict_get d "text" JNull)
  = first_truthy_text d.
Proof.
  unfold first_truthy_text, py_or. simpl.
  destruct (truthy (dict_get d "full_text" JNull)) eqn:H1; rewrite ?H1; [done|].
  destruct (truthy (dict_get d "content" JNull)) eqn:H2; rewrite ?H2; [done|].
  by destruct (truthy (dict_get d "text" JNull)).
Qed.

Lemma first_truthy_text_no_field (d : list (string * jvalue)) :
  dict_has "full_text" d || dict_has "content" d || dict_has "text" d = false →
  first_truthy_text d = JNull.
Proof.
  unfold dict_has, first_truthy_text, dict_get. simpl.
  destruct (dict_lookup "full_text" d); [done|].
  destruct (dict_lookup "content" d); [done|].
  by destruct (dict_lookup "text" d).
Qed.

Lemma read_metadata_body username files json_file d tweet_id user_id :
  first_endswith ".json" files = Some json_file →
  path_exists username json_file = true →
  open_json username json_file = Some (JObject d) →
  Post.text_content (read_metadata username files (empty_post tweet_id user_id))
  = first_truthy_text d.
Proof.
  intros Hfile Hexists Hopen. unfold read_metadata. rewrite Hfile, Hexists, Hopen. simpl.
  destruct (dict_has "full_text" d || dict_has "content" d || dict_has "text" d) eqn:Hany.
  - apply or_chain_first_truthy.
  - by rewrite first_truthy_text_no_field.
Qed.

Lemma read_caption_keeps_truthy username files p :
  truthy (Post.text_content p) = true →
  read_caption username files p = p.
Proof.
  intros Htruthy. unfold read_caption.
  destruct (first_endswith ".txt" files) as [txt_file|]; [|done].
  destruct (open_text username txt_file) as [content|]; [|done].
  destruct (Py.readlines content) as [|line0 rest]; [done|].
  rewrite Htruthy. simpl. by destruct (strptime (Py.strip line0)).
Qed.

Lemma read_caption_fills username files p txt_file content :
  truthy (Post.text_content p) = false →
  first_endswith ".txt" files = Some txt_file →
  open_text username txt_file = Some content →
  Py.readlines content ≠ [] →
  Post.text_content (read_caption username files p) = caption_body (Py.readlines content).
Proof.
  intros Hfalsy Hfile Hopen Hlines. unfold read_caption, caption_body.
  rewrite Hfile, Hopen.
  destruct (Py.readlines content) as [|line0 rest]; [done|].
  rewrite Hfalsy. simpl. by destruct (strptime (Py.strip line0)).
Qed.

(** C8, as amended. When the group's metadata file loads as a record, the
    body found in it is the first of the values of [full_text], [content],
    [text] that is true in Python's sense (the value of [text], or none,
    when no value is); that body is kept when it is true, and otherwise a
    readable caption file with at least one line supplies the body: its
    content stripped of surrounding whitespace, without its first line when
    that line, stripped, parses as a timestamp, and with all lines
    otherwise. *)
Theorem body_extraction (username : string) (user_id : nat) (tweet_id : string)
    (files : list string) (json_file : string) (d : list (string * jvalue)) :
  first_endswith ".json" files = Some json_file →
  path_exists username json_file = true →
  open_json username json_file = Some (JObject d) →
  (truthy (first_truthy_text d) = true →
     Post.text_content (extract_post username user_id tweet_id files) = first_truthy_text d)
  ∧ (truthy (first_truthy_text d) = false →
     (∀ txt_file content,
        first_endswith ".txt" files = Some txt_file →
        open_text username txt_file = Some content →
        Py.readlines content ≠ [] →
        Post.text_content (extract_post username user_id tweet_id files)
          = caption_body (Py.readlines content))
     ∧ (first_endswith ".txt" files = None →
        Post.text_content (extract_post username user_id tweet_id files)
          = first_truthy_text d)).
Proof.
  intros Hfile Hexists Hopen.
  pose proof (read_metadata_body username files json_file d tweet_id user_id
                Hfile Hexists Hopen) as Hbody.
  unfold extract_post. simpl.
  split; [|split].
  - intros Htruthy. rewrite read_caption_keeps_truthy; rewrite Hbody; done.
  - intros txt_file content Htxt Hopen_txt Hlines.
    apply (read_caption_fills username files _ txt_file content); [by rewrite Hbody|done..].
  - intros Hnone. unfold read_caption. by rewrite Hnone.
Qed.

End Body.

(** With [full_text] present and empty and [text] set, the body is the
    value of [text], not that of the first present field. *)
Lemma body_is_first_present_counterexample :
  ¬ @body_is_first_present Scenario.empty_full_text_archive Scenario.runtime
      "alice" ["111_1.json"].
Proof.
  intros Hclaim.
  specialize (Hclaim "111_1.json" Scenario.empty_full_text_record (JString "") 1%nat "111"
                eq_refl eq_refl eq_refl eq_refl).
  vm_compute in Hclaim. discriminate Hclaim.
Qed.

(** The amended statement on the same record. *)
Lemma body_extraction_witness :
  (first_endswith ".json" ["111_1.json"] = Some "111_1.json"
   ∧ @path_exists Scenario.empty_full_text_archive "alice" "111_1.json" = true
   ∧ @open_json Scenario.empty_full_text_archive "alice" "111_1.json"
       = Some (JObject Scenario.empty_full_text_record)
   ∧ truthy (first_truthy_text Scenario.empty_full_text_record) = true)
  ∧ Post.text_content
      (@extract_post Scenario.empty_full_text_archive Scenario.runtime
         "alice" 1 "111" ["111_1.json"]) = JString "hello".
Proof.
  split; [repeat split; reflexivity|].
  apply (proj1 (@body_extraction Scenario.empty_full_text_archive Scenario.runtime
                  "alice" 1%nat "111" ["111_1.json"] "111_1.json"
                  Scenario.empty_full_text_record eq_refl eq_refl eq_refl)).
  reflexivity.
Defined.

(** ** The store *)

Lemma max_list_with_id_ge (rows : list User.t) (u : User.t) :
  u ∈ rows → (User.id u ≤ max_list_with User.id rows)%nat.
Proof.
  induction rows as [|v rows IH]; intros Hin; [by apply elem_of_nil in Hin|].
  apply elem_of_cons in Hin as [->|Hin]; simpl; [lia|].
  specialize (IH Hin). lia.
Qed.

Lemma posts_of_new_user (st : Store) (username : string) :
  posts_have_users st →
  posts_of (User.id (new_user (users st) username)) (posts st) = ∅.
Proof.
  intros Hfk. apply map_empty. intros k.
  destruct (posts_of _ (posts st) !! k) as [p|] eqn:Hk; [|done].
  apply map_lookup_filter_Some in Hk as [Hk Hid]. simpl in Hid.
  destruct (Hfk k p Hk) as (u & Hu & Huid).
  pose proof (max_list_with_id_ge (users st) u Hu). lia.
Qed.

Lemma find_after_commit (rows : list User.t) (u u' : User.t) (h : string) :
  List.find (fun v => String.eqb (User.username v) h) rows = Some u →
  User.id u' = User.id u →
  User.username u' = h →
  List.find (fun v => String.eqb (User.username v) h)
    (map (fun v => if Nat.eqb (User.id v) (User.id u') then u' else v) rows) = Some u'.
Proof.
  intros Hfind Hid Hname. induction rows as [|v rows IH]; [done|].
  simpl in *. destruct (Nat.eqb (User.id v) (User.id u')) eqn:Hv.
  - by rewrite Hname, eqb_refl_true.
  - destruct (String.eqb (User.username v) h) eqn:Hvh.
    + injection Hfind as ->. apply Nat.eqb_neq in Hv. congruence.
    + by apply IH.
Qed.

Lemma find_append {A} (f : A → bool) (l1 l2 : list A) :
  List.find f (l1 ++ l2) = match List.find f l1 with Some x => Some x | None => List.find f l2 end.
Proof. induction l1 as [|x l1 IH]; simpl; [done|]. by destruct (f x). Qed.

Lemma ensure_user_query (username : string) (st : Store) :
  query_user (ensure_user username st).2 username = Some (ensure_user username st).1
  ∧ User.username (ensure_user username st).1 = username
  ∧ posts (ensure_user username st).2 = posts st.
Proof.
  unfold ensure_user, query_user.
  destruct (List.find _ (users st)) as [u|] eqn:Hfind; simpl.
  - split; [done|]. split; [|done].
    apply find_some in Hfind as [_ Heq]. by apply String.eqb_eq in Heq.
  - split; [|done]. rewrite find_append, Hfind. simpl. by rewrite eqb_refl_true.
Qed.

Lemma query_after_commit (username : string) (st : Store) (db_user db_user' : User.t) :
  query_user st username = Some db_user →
  User.id db_user' = User.id db_user →
  User.username db_user' = username →
  query_user (commit_user db_user' st) username = Some db_user'.
Proof. intros Hq Hid Hname. unfold query_user, commit_user. simpl. by eapply find_after_commit. Qed.

Section ScanLoop.
Context `{FileSystem} `{Runtime}.

Lemma read_metadata_owner username files p :
  Post.user_id (read_metadata username files p) = Post.user_id p
  ∧ Post.id (read_metadata username files p) = Post.id p.
Proof.
  unfold read_metadata.
  destruct (first_endswith ".json" files) as [json_file|]; [|done].
  destruct (path_exists username json_file); [|done].
  destruct (open_json username json_file) as [json_data|]; [|done].
  by destruct json_data.
Qed.

Lemma read_caption_owner username files p :
  Post.user_id (read_caption username files p) = Post.user_id p
  ∧ Post.id (read_caption username files p) = Post.id p.
Proof.
  unfold read_caption.
  destruct (first_endswith ".txt" files) as [txt_file|]; [|done].
  destruct (open_text username txt_file) as [content|]; [|done].
  destruct (Py.readlines content) as [|line0 rest]; [done|].
  destruct (strptime (Py.strip line0)); by destruct (negb (truthy (Post.text_content p))).
Qed.

Lemma extract_post_owner username user_id tweet_id files :
  Post.user_id (extract_post username user_id tweet_id files) = user_id
  ∧ Post.id (extract_post username user_id tweet_id files) = tweet_id.
Proof.
  unfold extract_post. simpl.
  destruct (read_caption_owner username files
              (read_metadata username files (empty_post tweet_id user_id))) as [-> ->].
  by destruct (read_metadata_owner username files (empty_post tweet_id user_id)) as [-> ->].
Qed.

(** The rows after the loop: the rows before it win on a shared key. *)
Lemma add_groups_rows username user_id groups n (rows : gmap string Post.t) :
  (fold_left (add_group username user_id) groups (n, rows)).2
  = rows ∪ list_to_map
             (map (fun group : string * list string =>
                     (group.1, extract_post username user_id group.1 group.2)) groups).
Proof.
  revert n rows. induction groups as [|[k fs] groups IH]; intros n rows; simpl.
  - by rewrite (right_id_L ∅ (∪)).
  - destruct (rows !! k) as [p|] eqn:Hk; rewrite IH.
    + apply map_eq. intros i. rewrite !lookup_union.
      destruct (decide (k = i)) as [<-|Hne].
      * rewrite Hk, lookup_insert_eq. by destruct (list_to_map _ !! k).
      * by rewrite lookup_insert_ne.
    + rewrite <- insert_union_l. by rewrite insert_union_r.
Qed.



End ScanLoop.

(** ** The sync controller *)

Section Controller.
Context `{FileSystem} `{Runtime}.

(** What a forced call does once the directory is listed. *)
Lemma forced_sync_result username names st :
  isdir username = true →
  listdir username = Some names →
  let db_user := (ensure_user username st).1 in
  let user_id := User.id db_user in
  let scan :=
    add_groups username user_id (files_by_tweet_id username names)
      (posts_not_of user_id (posts st)) in
  process_and_cache_user_posts username true st
  = (Returned scan.1 (size (posts_of user_id (posts st))),
     {| users := users (commit_user (refresh_profile username names db_user)
                          (ensure_user username st).2);
        posts := scan.2 |}).
Proof.
  intros Hdir Hlist. unfold process_and_cache_user_posts. rewrite Hdir. simpl.
  destruct (ensure_user_query username st) as (_ & _ & Hposts).
  destruct (ensure_user username st) as [db_user st0]. simpl in *.
  rewrite Hlist, Hposts. simpl.
  by destruct (add_groups username (User.id db_user) (files_by_tweet_id username names)
                 (posts_not_of (User.id db_user) (posts st))).
Qed.




(** What an unforced call does once the directory is listed. *)
Lemma incremental_sync_result username names st :
  isdir username = true →
  listdir username = Some names →
  let db_user := (ensure_user username st).1 in
  let st0 := (ensure_user username st).2 in
  let db_user' := refresh_profile username names db_user in
  let scan :=
    add_groups username (User.id db_user) (files_by_tweet_id username names) (posts st) in
  process_and_cache_user_posts username false st
  = if Nat.eqb (size (posts_of (User.id db_user) (posts st))) 0
    then (Returned scan.1 0, {| users := users (commit_user db_user' st0); posts := scan.2 |})
    else (Returned 0 0, commit_user db_user' st0).
Proof.
  intros Hdir Hlist. unfold process_and_cache_user_posts. rewrite Hdir. simpl.
  destruct (ensure_user_query username st) as (_ & _ & Hposts).
  destruct (ensure_user username st) as [db_user st0]. simpl in *.
  rewrite Hlist, Hposts. simpl.
  destruct (Nat.eqb (size (posts_of (User.id db_user) (posts st))) 0); simpl; [|done].
  by destruct (add_groups username (User.id db_user) (files_by_tweet_id username names)
                 (posts st)).
Qed.




End Controller.




(** ** The end-to-end scenario *)

Section Alice.
Context `{FileSystem} `{Runtime}.

Hypothesis alice_is_file_json : isfile "alice" "111_20200101.json" = true.
Hypothesis alice_is_file_jpg : isfile "alice" "111_20200101.jpg" = true.
Hypothesis alice_json_exists : path_exists "alice" "111_20200101.json" = true.
Hypothesis alice_json_content :
  open_json "alice" "111_20200101.json" = Some Scenario.alice_record.
Hypothesis alice_date_parses :
  strptime "2020-01-01 10:00:00" = Some (mk_datetime 2020 1 1 10 0 0 0).
Hypothesis media_extensions_of_app : MEDIA_EXTENSIONS = App.MEDIA_EXTENSIONS.

Lemma alice_listing_orders (names : list string) :
  names ≡ₚ ["111_20200101.json"; "111_20200101.jpg"] →
  names = ["111_20200101.json"; "111_20200101.jpg"]
  ∨ names = ["111_20200101.jpg"; "111_20200101.json"].
Proof.
  intros Hperm. symmetry in Hperm.
  apply Permutation.Permutation_length_2_inv in Hperm as [->| ->]; auto.
Qed.

Lemma alice_groups (names : list string) :
  names = ["111_20200101.json"; "111_20200101.jpg"]
  ∨ names = ["111_20200101.jpg"; "111_20200101.json"] →
  files_by_tweet_id "alice" names = [("111", names)].
Proof.
  intros [-> | ->]; unfold files_by_tweet_id; simpl; unfold group_step;
    rewrite alice_is_file_json, alice_is_file_jpg; reflexivity.
Qed.

Lemma alice_extract (names : list string) (user_id : nat) :
  names = ["111_20200101.json"; "111_20200101.jpg"]
  ∨ names = ["111_20200101.jpg"; "111_20200101.json"] →
  extract_post "alice" user_id "111" names = Scenario.alice_post user_id.
Proof.
  intros Horder.
  assert (Hjson : first_endswith ".json" names = Some "111_20200101.json")
    by (destruct Horder as [-> | ->]; reflexivity).
  assert (Htxt : first_endswith ".txt" names = None)
    by (destruct Horder as [-> | ->]; reflexivity).
  assert (Hmedia : media_paths "alice" names = ["alice/111_20200101.jpg"]).
  { unfold media_paths, media_step. rewrite media_extensions_of_app.
    destruct Horder as [-> | ->]; reflexivity. }
  assert (Htime : parse_timestamp "111" "alice" names = Some (mk_datetime 2020 1 1 10 0 0 0)).
  { unfold parse_timestamp, timestamp_from_json.
    rewrite Hjson, alice_json_content. simpl. by rewrite alice_date_parses. }
  unfold extract_post, read_metadata, read_caption.
  rewrite Hjson, Htxt, alice_json_exists, alice_json_content, Hmedia, Htime.
  reflexivity.
Qed.

Lemma alice_profile (names : list string) (db_user : User.t) :
  names = ["111_20200101.json"; "111_20200101.jpg"]
  ∨ names = ["111_20200101.jpg"; "111_20200101.json"] →
  refresh_profile "alice" names db_user = db_user.
Proof.
  intros Horder. unfold refresh_profile.
  replace (sorted_reverse (List.filter (fun f => Py.endswith f ".json") names))
    with ["111_20200101.json"] by (destruct Horder as [-> | ->]; reflexivity).
  simpl. rewrite alice_json_content. simpl. apply update_user_fields_nothing.
Qed.

(** C4. In a directory [alice] that holds exactly [111_20200101.json],
    with the content of the scenario, and [111_20200101.jpg], listed in
    either order, [sync("alice", false)] on a store with no row for alice
    and no post 111 returns (1, 0); the table of posts gains exactly the
    post 111, with timestamp 2020-01-01 10:00:00, body "hi" and the single
    media path alice/111_20200101.jpg, and it is the only post of alice. *)
Theorem end_to_end_alice (names : list string) (st : Store) :
  isdir "alice" = true →
  listdir "alice" = Some names →
  names ≡ₚ ["111_20200101.json"; "111_20200101.jpg"] →
  query_user st "alice" = None →
  posts st !! "111" = None →
  posts_have_users st →
  ∃ st' db_user p,
    process_and_cache_user_posts "alice" false st = (Returned 1 0, st')
    ∧ query_user st' "alice" = Some db_user
    ∧ posts st' = <["111" := p]> (posts st)
    ∧ posts_of (User.id db_user) (posts st') = {[ "111" := p ]}
    ∧ Post.id p = "111"
    ∧ Post.user_id p = User.id db_user
    ∧ Post.timestamp p = Some (mk_datetime 2020 1 1 10 0 0 0)
    ∧ Post.text_content p = JString "hi"
    ∧ Post.media_files p = ["alice/111_20200101.jpg"].
Proof.
  intros Hdir Hlist Hperm Hquery Hfree Hfk.
  apply alice_listing_orders in Hperm as Horder.
  assert (Hnone : posts_of (User.id (new_user (users st) "alice")) (posts st) = ∅)
    by (by apply posts_of_new_user).
  assert (Hensure : ensure_user "alice" st
                    = (new_user (users st) "alice",
                       {| users := users st ++ [new_user (users st) "alice"];
                          posts := posts st |})).
  { unfold ensure_user. by rewrite Hquery. }
  remember (new_user (users st) "alice") as db_user eqn:Hdb.
  assert (Hname : User.username db_user = "alice") by (by rewrite Hdb).
  exists {| users := users (commit_user db_user
                              {| users := users st ++ [db_user]; posts := posts st |});
            posts := <["111" := Scenario.alice_post (User.id db_user)]> (posts st) |}.
  exists db_user, (Scenario.alice_post (User.id db_user)).
  split; [|split; [|split; [done|split; [|done]]]].
  - rewrite (incremental_sync_result "alice" names st Hdir Hlist).
    rewrite Hensure. simpl. rewrite Hnone. simpl.
    rewrite (alice_profile names db_user Horder), (alice_groups names Horder).
    unfold add_groups. simpl. rewrite Hfree.
    by rewrite (alice_extract names (User.id db_user) Horder).
  - pose proof (ensure_user_query "alice" st) as (Hq & _ & _). rewrite Hensure in Hq.
    simpl in Hq.
    apply (query_after_commit "alice" _ db_user db_user Hq eq_refl Hname).
  - simpl. unfold posts_of. rewrite map_filter_insert_True by done.
    fold (posts_of (User.id db_user) (posts st)). by rewrite Hnone.
Qed.

End Alice.

(** The scenario on the empty store. *)
Lemma end_to_end_alice_witness :
  let names := ["111_20200101.json"; "111_20200101.jpg"] in
  (@isdir Scenario.alice_archive "alice" = true
   ∧ @listdir Scenario.alice_archive "alice" = Some names
   ∧ names ≡ₚ ["111_20200101.json"; "111_20200101.jpg"]
   ∧ query_user Scenario.empty_store "alice" = None
   ∧ posts Scenario.empty_store !! "111" = None
   ∧ posts_have_users Scenario.empty_store)
  ∧ ∃ st' db_user p,
      @process_and_cache_user_posts Scenario.alice_archive Scenario.runtime
        "alice" false Scenario.empty_store = (Returned 1 0, st')
      ∧ query_user st' "alice" = Some db_user
      ∧ posts st' = <["111" := p]> (posts Scenario.empty_store)
      ∧ posts_of (User.id db_user) (posts st') = {[ "111" := p ]}
      ∧ Post.id p = "111"
      ∧ Post.user_id p = User.id db_user
      ∧ Post.timestamp p = Some (mk_datetime 2020 1 1 10 0 0 0)
      ∧ Post.text_content p = JString "hi"
      ∧ Post.media_files p = ["alice/111_20200101.jpg"].
Proof.
  intros names.
  assert (Hfk : posts_have_users Scenario.empty_store).
  { intros k p Hk. simpl in Hk. by rewrite lookup_empty in Hk. }
  split; [repeat split; try reflexivity; exact Hfk|].
  apply (@end_to_end_alice Scenario.alice_archive Scenario.runtime
           eq_refl eq_refl eq_refl eq_refl eq_refl eq_refl names Scenario.empty_store);
    try reflexivity; exact Hfk.
Defined.

(** * Further properties of the engine *)

Section EngineFacts.
Context `{FileSystem} `{Runtime}.

Lemma absent_directory_sync username force st :
  isdir username = false →
  process_and_cache_user_posts username force st = (Returned 0 0, st).
Proof. intros Hdir. unfold process_and_cache_user_posts. by rewrite Hdir. Qed.



Lemma add_groups_keeps username user_id groups n (rows : gmap string Post.t) k p :
  rows !! k = Some p →
  (fold_left (add_group username user_id) groups (n, rows)).2 !! k = Some p.
Proof. intros Hk. rewrite add_groups_rows. by apply lookup_union_Some_l. Qed.

(** The three ways a call ends once the directory exists. *)
Lemma sync_cases username force st :
  isdir username = true →
  let db_user := (ensure_user username st).1 in
  let st0 := (ensure_user username st).2 in
  (listdir username = None
   ∧ process_and_cache_user_posts username force st = (Raised, st0))
  ∨ (∃ names, listdir username = Some names
       ∧ force = false
       ∧ size (posts_of (User.id db_user) (posts st)) ≠ 0%nat
       ∧ process_and_cache_user_posts username force st
         = (Returned 0 0, commit_user (refresh_profile username names db_user) st0))
  ∨ (∃ names start,
       listdir username = Some names
       ∧ (force = true ∧ start = posts_not_of (User.id db_user) (posts st)
          ∨ force = false ∧ start = posts st
            ∧ size (posts_of (User.id db_user) (posts st)) = 0%nat)
       ∧ let scan :=
           add_groups username (User.id db_user) (files_by_tweet_id username names) start in
         process_and_cache_user_posts username force st
         = (Returned scan.1
              (if force then size (posts_of (User.id db_user) (posts st)) else 0%nat),
            {| users := users (commit_user (refresh_profile username names db_user) st0);
               posts := scan.2 |})).
Proof.
  intros Hdir db_user st0.
  destruct (listdir username) as [names|] eqn:Hlist.
  - right. destruct force.
    + right. exists names, (posts_not_of (User.id db_user) (posts st)).
      split; [done|]. split; [by left|].
      apply (forced_sync_result username names st Hdir Hlist).
    + pose proof (incremental_sync_result username names st Hdir Hlist) as Hrun.
      simpl in Hrun. fold db_user st0 in Hrun.
      destruct (Nat.eqb (size (posts_of (User.id db_user) (posts st))) 0) eqn:Hsize.
      * right. exists names, (posts st). split; [done|].
        split; [right; split; [done|split; [done|by apply Nat.eqb_eq]]|]. exact Hrun.
      * left. exists names. split; [done|]. split; [done|].
        split; [by apply Nat.eqb_neq|]. exact Hrun.
  - left. split; [done|]. unfold process_and_cache_user_posts. rewrite Hdir. simpl.
    subst db_user st0. destruct (ensure_user username st). by rewrite Hlist.
Qed.

Lemma incremental_sync_monotone (username : string) (st st' : Store)
    (added deleted : nat) :
  process_and_cache_user_posts username false st = (Returned added deleted, st') →
  deleted = 0%nat ∧ ∀ k p, posts st !! k = Some p → posts st' !! k = Some p.
Proof.
  intros Hrun. destruct (isdir username) eqn:Hdir; cycle 1.
  { rewrite absent_directory_sync in Hrun by done. by simplify_eq. }
  destruct (ensure_user_query username st) as (_ & _ & Hposts).
  destruct (sync_cases username false st Hdir)
    as [[_ Hr]|[(names & _ & _ & _ & Hr)|(names & start & _ & Hstart & Hr)]];
    rewrite Hr in Hrun; [done|..].
  - injection Hrun as _ <- <-. split; [done|]. simpl. by rewrite Hposts.
  - destruct Hstart as [[? _]|(_ & -> & _)]; [done|].
    injection Hrun as _ <- <-. split; [done|]. intros k p Hk. simpl.
    by apply add_groups_keeps.
Qed.

(** X1. An unforced call that returns reports no deletion and leaves
    every stored post in place, unchanged. *)
Theorem incremental_sync_keeps_posts (username : string) (st st' : Store)
    (added deleted : nat) :
  process_and_cache_user_posts username false st = (Returned added deleted, st') →
  deleted = 0%nat ∧ ∀ k p, posts st !! k = Some p → posts st' !! k = Some p.
Proof. intros Hrun. by apply (incremental_sync_monotone username st st' added). Qed.



End EngineFacts.

(** ** The store under a sync *)

Lemma commit_user_ids (db_user : User.t) (rows : list User.t) :
  map User.id (map (fun u => if Nat.eqb (User.id u) (User.id db_user) then db_user else u) rows)
  = map User.id rows.
Proof.
  induction rows as [|v rows IH]; simpl; [done|]. rewrite IH.
  destruct (Nat.eqb (User.id v) (User.id db_user)) eqn:Hv; [|done].
  apply Nat.eqb_eq in Hv. by rewrite Hv.
Qed.

Lemma same_key_same_row (rows : list User.t) (u v : User.t) :
  NoDup (map User.id rows) → u ∈ rows → v ∈ rows → User.id u = User.id v → u = v.
Proof.
  intros Hnodup Hu Hv Hid.
  apply list_elem_of_lookup in Hu as [i Hi]. apply list_elem_of_lookup in Hv as [j Hj].
  assert (i = j) as ->; [|congruence].
  apply (NoDup_lookup (map User.id rows) i j (User.id u)); [done|..].
  - by rewrite list_lookup_fmap, Hi.
  - by rewrite list_lookup_fmap, Hj, Hid.
Qed.

Lemma commit_user_usernames (db_user db_user' : User.t) (rows : list User.t) :
  NoDup (map User.id rows) →
  db_user ∈ rows →
  User.id db_user' = User.id db_user →
  User.username db_user' = User.username db_user →
  map User.username
    (map (fun u => if Nat.eqb (User.id u) (User.id db_user') then db_user' else u) rows)
  = map User.username rows.
Proof.
  intros Hnodup Hin Hid Hname. rewrite !map_map. apply map_ext_in. intros v Hv.
  apply list_elem_of_In in Hv.
  destruct (Nat.eqb (User.id v) (User.id db_user')) eqn:Heq; [|done].
  apply Nat.eqb_eq in Heq. rewrite Hid in Heq.
  by rewrite (same_key_same_row rows v db_user Hnodup Hv Hin Heq).
Qed.

Lemma commit_user_elem (db_user' : User.t) (rows : list User.t) (u : User.t) :
  u ∈ rows →
  ∃ v, v ∈ map (fun u => if Nat.eqb (User.id u) (User.id db_user') then db_user' else u) rows
       ∧ User.id v = User.id u.
Proof.
  intros Hu.
  exists (if Nat.eqb (User.id u) (User.id db_user') then db_user' else u). split.
  - apply list_elem_of_fmap. by exists u.
  - destruct (Nat.eqb (User.id u) (User.id db_user')) eqn:Heq; [|done].
    by apply Nat.eqb_eq in Heq.
Qed.

Lemma query_user_elem (st : Store) (username : string) (u : User.t) :
  query_user st username = Some u → u ∈ users st ∧ User.username u = username.
Proof.
  unfold query_user. intros Hfind. apply find_some in Hfind as [Hin Heq].
  split; [by apply list_elem_of_In|by apply String.eqb_eq].
Qed.

Lemma query_user_none (st : Store) (username : string) :
  query_user st username = None → username ∉ map User.username (users st).
Proof.
  unfold query_user. intros Hfind Hin.
  apply list_elem_of_fmap in Hin as (u & Hname & Hu).
  apply list_elem_of_In in Hu.
  pose proof (find_none _ _ Hfind u Hu) as Hneq. simpl in Hneq.
  rewrite <- Hname, eqb_refl_true in Hneq. done.
Qed.

Lemma new_user_id_fresh (rows : list User.t) (username : string) :
  User.id (new_user rows username) ∉ map User.id rows.
Proof.
  intros Hin. apply list_elem_of_fmap in Hin as (u & Hid & Hu).
  pose proof (max_list_with_id_ge rows u Hu). simpl in Hid. lia.
Qed.

Lemma ensure_user_consistent (username : string) (st : Store) :
  store_consistent st → store_consistent (ensure_user username st).2.
Proof.
  intros (Hids & Hnames & Hposts). unfold ensure_user.
  destruct (query_user st username) as [u|] eqn:Hquery; simpl; [done|].
  split; [|split]; simpl.
  - rewrite map_app. apply NoDup_app. split; [done|]. split; [|apply NoDup_singleton].
    intros x Hx Hx'. apply list_elem_of_singleton in Hx'. subst x.
    by apply (new_user_id_fresh (users st) username).
  - rewrite map_app. apply NoDup_app. split; [done|]. split; [|apply NoDup_singleton].
    intros x Hx Hx'. apply list_elem_of_singleton in Hx'. subst x.
    by apply (query_user_none st username).
  - intros k p Hk. destruct (Hposts k p Hk) as (Hid & u & Hu & Huid).
    split; [done|]. exists u. split; [|done]. apply elem_of_app. by left.
Qed.

Lemma ensure_user_elem (username : string) (st : Store) :
  (ensure_user username st).1 ∈ users (ensure_user username st).2.
Proof.
  destruct (ensure_user_query username st) as (Hquery & _ & _).
  by apply query_user_elem in Hquery as [Hin _].
Qed.

Section ConsistencyFacts.
Context `{FileSystem} `{Runtime}.

Lemma add_groups_consistent username user_id groups n (rows : gmap string Post.t) k p :
  (fold_left (add_group username user_id) groups (n, rows)).2 !! k = Some p →
  rows !! k = Some p ∨ (Post.id p = k ∧ Post.user_id p = user_id).
Proof.
  rewrite add_groups_rows, lookup_union_Some_raw. intros [Hk|[_ Hk]]; [by left|right].
  apply elem_of_list_to_map_2, list_elem_of_fmap in Hk as (group & Heq & _).
  injection Heq as -> ->.
  destruct (extract_post_owner username user_id group.1 group.2) as [Huid Hid]. done.
Qed.

Lemma sync_consistent (username : string) (force : bool) (st : Store) :
  store_consistent st →
  store_consistent (process_and_cache_user_posts username force st).2.
Proof.
  intros Hst. destruct (isdir username) eqn:Hdir; cycle 1.
  { by rewrite absent_directory_sync. }
  pose proof (ensure_user_consistent username st Hst) as Hst0.
  pose proof (ensure_user_elem username st) as Hin.
  destruct (ensure_user_query username st) as (_ & _ & Hsame).
  set (db_user := (ensure_user username st).1) in *.
  set (st0 := (ensure_user username st).2) in *.
  assert (Hcommit : ∀ names rows,
    (∀ k p, rows !! k = Some p →
       posts st0 !! k = Some p ∨ (Post.id p = k ∧ Post.user_id p = User.id db_user)) →
    store_consistent
      {| users := users (commit_user (refresh_profile username names db_user) st0);
         posts := rows |}).
  { intros names rows Hrows. destruct Hst0 as (Hids & Hnames & Hposts).
    split; [|split]; unfold commit_user; cbn [users posts].
    - by rewrite commit_user_ids.
    - by rewrite (commit_user_usernames db_user).
    - intros k p Hk. destruct (Hrows k p Hk) as [Hold|[Hid Huid]].
      + destruct (Hposts k p Hold) as (Hid & u & Hu & Huid). split; [done|].
        destruct (commit_user_elem (refresh_profile username names db_user) (users st0) u Hu)
          as (v & Hv & Hvid).
        exists v. split; [done|congruence].
      + split; [done|].
        destruct (commit_user_elem (refresh_profile username names db_user) (users st0)
                    db_user Hin) as (v & Hv & Hvid).
        exists v. split; [done|congruence]. }
  destruct (sync_cases username force st Hdir)
    as [[_ Hr]|[(names & _ & _ & _ & Hr)|(names & start & _ & Hstart & Hr)]];
    rewrite Hr; simpl; [done|..].
  - assert (Heq : commit_user (refresh_profile username names db_user) st0
                  = {| users := users (commit_user (refresh_profile username names db_user) st0);
                       posts := posts st0 |}) by done.
    fold db_user st0. rewrite Heq. apply Hcommit. auto.
  - apply Hcommit. intros k p Hk.
    apply add_groups_consistent in Hk as [Hk|Hk]; [left|by right].
    destruct Hstart as [[_ ->]|(_ & -> & _)]; [|by rewrite Hsame].
    apply map_lookup_filter_Some in Hk as [Hk _]. by rewrite Hsame.
Qed.

(** X3. A sync keeps the constraints of the two tables: author keys and
    handles stay unique, every post stays stored under its own identifier
    and keeps referring to an existing author. *)
Theorem sync_keeps_store_consistent (username : string) (force : bool) (st : Store) :
  store_consistent st →
  store_consistent (process_and_cache_user_posts username force st).2.
Proof. intros Hst. by apply sync_consistent. Qed.


End ConsistencyFacts.

Lemma find_unchanged_rows (rows : list User.t) (db_user db_user' : User.t) (other : string) :
  NoDup (map User.id rows) →
  db_user ∈ rows →
  User.id db_user' = User.id db_user →
  User.username db_user' = User.username db_user →
  User.username db_user ≠ other →
  List.find (fun v => String.eqb (User.username v) other)
    (map (fun u => if Nat.eqb (User.id u) (User.id db_user') then db_user' else u) rows)
  = List.find (fun v => String.eqb (User.username v) other) rows.
Proof.
  intros Hnodup Hin Hid Hname Hother.
  assert (Hrows : ∀ v, v ∈ rows → v ∈ rows) by done. revert Hrows.
  generalize rows at 1 3 4. intros part.
  induction part as [|v part IH]; intros Hpart; [done|]. simpl.
  assert (Hv : v ∈ rows) by (apply Hpart, elem_of_cons; by left).
  rewrite IH by (intros w Hw; apply Hpart, elem_of_cons; by right).
  destruct (Nat.eqb (User.id v) (User.id db_user')) eqn:Heq; [|done].
  apply Nat.eqb_eq in Heq. rewrite Hid in Heq.
  rewrite (same_key_same_row rows v db_user Hnodup Hv Hin Heq), Hname.
  by destruct (String.eqb_spec (User.username db_user) other).
Qed.

Lemma ensure_user_other (username other : string) (st : Store) :
  username ≠ other →
  query_user (ensure_user username st).2 other = query_user st other.
Proof.
  intros Hne. unfold ensure_user.
  destruct (query_user st username) eqn:Hquery; [done|].
  unfold query_user. simpl. rewrite find_append.
  destruct (List.find _ (users st)); [done|]. simpl.
  by destruct (String.eqb_spec username other).
Qed.

Section AuthorRow.
Context `{FileSystem} `{Runtime}.

Lemma sync_users username force st :
  isdir username = true →
  users (process_and_cache_user_posts username force st).2 = users (ensure_user username st).2
  ∨ ∃ names,
      users (process_and_cache_user_posts username force st).2
      = users (commit_user (refresh_profile username names (ensure_user username st).1)
                 (ensure_user username st).2).
Proof.
  intros Hdir.
  destruct (sync_cases username force st Hdir)
    as [[_ Hr]|[(names & _ & _ & _ & Hr)|(names & start & _ & _ & Hr)]]; rewrite Hr;
    [by left|right; by exists names..].
Qed.

Lemma sync_other_rows username force st other :
  store_consistent st →
  other ≠ username →
  query_user (process_and_cache_user_posts username force st).2 other = query_user st other.
Proof.
  intros Hst Hother. destruct (isdir username) eqn:Hdir; cycle 1.
  { by rewrite absent_directory_sync. }
  destruct (ensure_user_query username st) as (_ & Hname & _).
  pose proof (ensure_user_elem username st) as Hin.
  pose proof (ensure_user_consistent username st Hst) as (Hids & _ & _).
  rewrite <- (ensure_user_other username other st) by done.
  destruct (sync_users username force st Hdir) as [Husers|[names Husers]];
    unfold query_user; rewrite Husers; [done|].
  unfold commit_user; cbn [users].
  apply (find_unchanged_rows _ (ensure_user username st).1); [done|done|done|done|congruence].
Qed.



(** X5. After a call for an existing directory the author has a row,
    whatever the outcome: the row found carries the handle and the key of
    the row the author had before, or a fresh key; and in a store that
    meets its constraints the rows of all other authors are as they were. *)
Theorem sync_leaves_author_row (username : string) (force : bool) (st : Store) :
  isdir username = true →
  let st' := (process_and_cache_user_posts username force st).2 in
  (∃ u, query_user st' username = Some u
        ∧ User.username u = username
        ∧ User.id u = User.id (ensure_user username st).1
        ∧ (∀ v, query_user st username = Some v → User.id u = User.id v)
        ∧ (query_user st username = None → User.id u ∉ map User.id (users st)))
  ∧ (store_consistent st →
     ∀ other, other ≠ username → query_user st' other = query_user st other).
Proof.
  intros Hdir st'. subst st'.
  destruct (ensure_user_query username st) as (Hquery & Hname & _).
  pose proof (ensure_user_elem username st) as Hin.
  set (db_user := (ensure_user username st).1) in *.
  set (st0 := (ensure_user username st).2) in *.
  assert (Hkeys : (∀ v, query_user st username = Some v → User.id db_user = User.id v)
                  ∧ (query_user st username = None → User.id db_user ∉ map User.id (users st))).
  { subst db_user. unfold ensure_user.
    destruct (query_user st username) as [v|]; simpl.
    - split; [by intros ? [= <-]|done].
    - split; [done|]. intros _. apply (new_user_id_fresh (users st) username). }
  split.
  - destruct (sync_users username force st Hdir) as [Husers|[names Husers]].
    + exists db_user. split; [|by destruct Hkeys].
      unfold query_user. rewrite Husers. exact Hquery.
    + exists (refresh_profile username names db_user).
      split; [|by destruct Hkeys].
      unfold query_user. rewrite Husers.
      by apply (query_after_commit username st0 db_user).
  - intros Hst other Hother. by apply sync_other_rows.
Qed.

End AuthorRow.

(** ** The grouper and the tagger *)

Lemma group_append_keys (tweet_id filename : string) (groups : list (string * list string)) :
  map fst (group_append tweet_id filename groups)
  = if bool_decide (tweet_id ∈ map fst groups) then map fst groups
    else map fst groups ++ [tweet_id].
Proof.
  induction groups as [|[k fs] r IH]; simpl; [done|].
  destruct (String.eqb_spec k tweet_id) as [->|Hne]; simpl.
  - rewrite bool_decide_eq_true_2; [done|]. apply elem_of_cons. by left.
  - rewrite IH. destruct (bool_decide (tweet_id ∈ map fst r)) eqn:Hin.
    + apply bool_decide_eq_true_1 in Hin.
      rewrite bool_decide_eq_true_2; [done|]. apply elem_of_cons. by right.
    + apply bool_decide_eq_false_1 in Hin.
      rewrite bool_decide_eq_false_2; [done|]. intros Hc.
      apply elem_of_cons in Hc as [Hc|Hc]; [by subst|done].
Qed.

Lemma group_append_nodup (tweet_id filename : string) (groups : list (string * list string)) :
  NoDup (map fst groups) → NoDup (map fst (group_append tweet_id filename groups)).
Proof.
  intros Hnodup. rewrite group_append_keys.
  destruct (bool_decide (tweet_id ∈ map fst groups)) eqn:Hin; [done|].
  apply bool_decide_eq_false_1 in Hin. apply NoDup_app. split; [done|].
  split; [|apply NoDup_singleton].
  intros x Hx Hx'. apply list_elem_of_singleton in Hx'. by subst.
Qed.


Section GrouperFacts.
Context `{FileSystem} `{Runtime}.

Lemma group_fold_nodup username names groups :
  NoDup (map fst groups) → NoDup (map fst (fold_left (group_step username) names groups)).
Proof.
  revert groups. induction names as [|n names IH]; intros groups Hnodup; simpl; [done|].
  apply IH. unfold group_step. destruct (isfile username n); [|done].
  destruct (extract_tweet_id_from_filename n); [|done]. by apply group_append_nodup.
Qed.

(** The files a group holds after the loop has run over [names]. *)
Lemma group_fold_lookup username names groups tweet_id :
  group_lookup tweet_id (fold_left (group_step username) names groups)
  = match group_lookup tweet_id groups, List.filter (tagged_with username tweet_id) names with
    | None, [] => None
    | before, added => Some (default [] before ++ added)
    end.
Proof.
  revert groups. induction names as [|n names IH]; intros groups; simpl.
  - destruct (group_lookup tweet_id groups); [by rewrite app_nil_r|done].
  - rewrite IH. unfold group_step, tagged_with.
    destruct (isfile username n); simpl; [|done].
    destruct (extract_tweet_id_from_filename n) as [t|]; [|done].
    rewrite group_lookup_append.
    destruct (String.eqb_spec t tweet_id) as [->|Hne]; [|done].
    destruct (group_lookup tweet_id groups) as [fs|]; simpl.
    + by rewrite <- app_assoc.
    + done.
Qed.

(** X6. The group of an identifier holds exactly the regular files of the
    listing that carry the identifier, in listing order and as often as
    the listing names them; an identifier no such file carries has no
    group, and no identifier has two groups. *)
Theorem groups_are_filters (username : string) (names : list string) :
  (∀ tweet_id,
     group_lookup tweet_id (files_by_tweet_id username names)
     = match List.filter (tagged_with username tweet_id) names with
       | [] => None
       | files => Some files
       end)
  ∧ NoDup (map fst (files_by_tweet_id username names))
  ∧ (∀ group, group ∈ files_by_tweet_id username names →
       group_lookup group.1 (files_by_tweet_id username names) = Some group.2
       ∧ group.2 ≠ []).
Proof.
  assert (Hlookup : ∀ tweet_id,
     group_lookup tweet_id (files_by_tweet_id username names)
     = match List.filter (tagged_with username tweet_id) names with
       | [] => None
       | files => Some files
       end).
  { intros tweet_id. unfold files_by_tweet_id. rewrite group_fold_lookup. simpl.
    by destruct (List.filter _ names). }
  assert (Hnodup : NoDup (map fst (files_by_tweet_id username names)))
    by (apply group_fold_nodup; constructor).
  split; [done|]. split; [done|].
  intros [k fs] Hgroup. simpl.
  assert (Hfirst : ∀ groups, NoDup (map fst groups) → (k, fs) ∈ groups →
                             group_lookup k groups = Some fs).
  { clear. induction groups as [|[k' fs'] r IH]; intros Hnodup Hin;
      [by apply elem_of_nil in Hin|].
    simpl in *. apply NoDup_cons in Hnodup as [Hk' Hr].
    apply elem_of_cons in Hin as [Heq|Hin].
    - injection Heq as <- <-. by rewrite eqb_refl_true.
    - destruct (String.eqb_spec k' k) as [->|_]; [|by apply IH].
      exfalso. apply Hk', list_elem_of_fmap. by exists (k, fs). }
  pose proof (Hfirst _ Hnodup Hgroup) as Hk. split; [done|].
  rewrite Hlookup in Hk. destruct (List.filter _ names); [done|]. by injection Hk as <-.
Qed.

End GrouperFacts.


(** ** The resolver and the extractor at their edges *)

Lemma digit_value_nonneg (c : ascii) : 0 ≤ Py.digit_value c.
Proof. destruct c as [[] [] [] [] [] [] [] []]; simpl; lia. Qed.

Lemma digit_value_positive (c : ascii) :
  Py.is_digit c = true → c ≠ "0"%char → 1 ≤ Py.digit_value c.
Proof. destruct c as [[] [] [] [] [] [] [] []]; simpl; intros; try lia; done. Qed.

Lemma int_digits_lower (s : string) (acc : Z) :
  0 ≤ acc → acc * 10 ^ Z.of_nat (String.length s) ≤ Py.int_digits acc s.
Proof.
  revert acc. induction s as [|c t IH]; intros acc Hacc; simpl String.length.
  - simpl. lia.
  - cbn [Py.int_digits]. pose proof (digit_value_nonneg c) as Hc.
    specialize (IH (10 * acc + Py.digit_value c) ltac:(lia)).
    rewrite Nat2Z.inj_succ, Z.pow_succ_r by lia.
    assert (0 ≤ 10 ^ Z.of_nat (String.length t)) by (apply Z.pow_nonneg; lia).
    nia.
Qed.

Lemma take_length (n : nat) (s : string) :
  (n ≤ String.length s)%nat → String.length (Py.take n s) = n.
Proof.
  revert s. induction n as [|n IH]; intros s Hn; [done|].
  destruct s as [|c t]; simpl in *; [lia|]. rewrite IH; [done|lia].
Qed.

Section EdgeFacts.
Context `{FileSystem} `{Runtime}.

(** X8. A name whose root begins with a run of eleven or more digits, the
    first of them not zero, never yields a file-name timestamp: the search
    stops at the first eleven digits of that run, whose value lies above
    the accepted window, and nothing later in the name is examined. *)
Theorem long_identifier_hides_epoch (filename : string) (c : ascii) (rest : string) :
  Py.digit_run (Py.splitext_root filename) = String c rest →
  c ≠ "0"%char →
  (10 ≤ String.length rest)%nat →
  timestamp_from_filename filename = None.
Proof.
  intros Hrun Hc Hlen. unfold timestamp_from_filename.
  pose proof (digit_run_all_digits (Py.splitext_root filename)) as Hdigits.
  rewrite Hrun in Hdigits. simpl in Hdigits. apply andb_true_iff in Hdigits as [Hdigit _].
  assert (Hsearch : re_search_digits_9_11 (Py.splitext_root filename)
                    = Some (String c (Py.take 10 rest))).
  { destruct (Py.splitext_root filename) as [|c' root]; [done|].
    cbn [re_search_digits_9_11]. rewrite Hrun.
    replace (9 <=? String.length (String c rest))%nat with true; [done|].
    symmetry. apply Nat.leb_le. simpl. lia. }
  rewrite Hsearch.
  pose proof (int_digits_lower (Py.take 10 rest) (Py.digit_value c)
                (digit_value_nonneg c)) as Hlow.
  rewrite (take_length 10 rest Hlen) in Hlow.
  pose proof (digit_value_positive c Hdigit Hc) as Hpos.
  assert (Hint : Py.int (String c (Py.take 10 rest))
                 = Py.int_digits (Py.digit_value c) (Py.take 10 rest)) by done.
  change (10 ^ Z.of_nat 10) with 10000000000 in Hlow.
  destruct (Py.int (String c (Py.take 10 rest)) <? 2524608000) eqn:Hhi;
    [lia|by rewrite andb_false_r].
Qed.


Lemma replace_char_removes (a b : ascii) (s : string) :
  a ≠ b → contains_char a (Py.replace_char a b s) = false.
Proof.
  intros Hab. induction s as [|c t IH]; simpl; [done|]. rewrite IH, orb_false_r.
  destruct (Ascii.eqb_spec c a) as [->|Hc].
  - destruct (Ascii.eqb_spec b a); [congruence|done].
  - by destruct (Ascii.eqb_spec c a).
Qed.

Lemma replace_char_append (a b : ascii) (s t : string) :
  Py.replace_char a b (s +:+ t) = Py.replace_char a b s +:+ Py.replace_char a b t.
Proof. induction s as [|c s IH]; [done|]. rewrite append_cons. simpl. by rewrite IH. Qed.

Lemma path_join_plain (a b : string) :
  Py.is_empty a = false → Py.endswith a "/" = false → starts_with_digit b = true →
  Py.path_join a b = a +:+ "/" +:+ b.
Proof.
  intros Ha Hslash Hb. unfold Py.path_join. rewrite Ha, Hslash. simpl.
  destruct b as [|c t]; [done|].
  destruct c as [[] [] [] [] [] [] [] []]; try done.
Qed.

(** X10. No stored media path contains a backslash; and for a handle
    that is not empty and does not end in a slash, the media paths of a
    group of digit-led names are the handle, a slash and the name, each
    with its backslashes turned into slashes. *)
Theorem media_paths_shape (username : string) (user_id : nat) (tweet_id : string)
    (files : list string) :
  (∀ p, p ∈ Post.media_files (extract_post username user_id tweet_id files) →
        contains_char "092" p = false)
  ∧ (Py.is_empty username = false →
     Py.endswith username "/" = false →
     (∀ f, f ∈ files → starts_with_digit f = true) →
     Post.media_files (extract_post username user_id tweet_id files)
     = map (fun f => Py.replace_char "092" "/" username +:+ "/"
                       +:+ Py.replace_char "092" "/" f)
           (List.filter is_media files)).
Proof.
  rewrite extract_post_media, media_paths_filter. split.
  - intros p Hp. apply list_elem_of_fmap in Hp as (f & -> & _).
    by apply replace_char_removes.
  - intros Hne Hslash Hdigits. apply map_ext_in. intros f Hf.
    apply filter_In in Hf as [Hf _]. apply list_elem_of_In in Hf.
    unfold media_path. rewrite (path_join_plain username f Hne Hslash (Hdigits f Hf)).
    by rewrite !replace_char_append.
Qed.

Lemma read_caption_frame username files p :
  Post.retweet_count (read_caption username files p) = Post.retweet_count p
  ∧ Post.reply_count (read_caption username files p) = Post.reply_count p
  ∧ Post.favorite_count (read_caption username files p) = Post.favorite_count p
  ∧ Post.bookmark_count (read_caption username files p) = Post.bookmark_count p
  ∧ Post.raw_json_data (read_caption username files p) = Post.raw_json_data p.
Proof.
  unfold read_caption.
  destruct (first_endswith ".txt" files) as [txt_file|]; [|done].
  destruct (open_text username txt_file) as [content|]; [|done].
  destruct (Py.readlines content) as [|line0 rest]; [done|].
  destruct (strptime (Py.strip line0)); by destruct (negb (truthy (Post.text_content p))).
Qed.

Lemma read_metadata_unusable username files tweet_id user_id :
  metadata_unusable username files →
  let p := read_metadata username files (empty_post tweet_id user_id) in
  Post.text_content p = JNull
  ∧ Post.retweet_count p = JNull ∧ Post.reply_count p = JNull
  ∧ Post.favorite_count p = JNull ∧ Post.bookmark_count p = JNull
  ∧ Post.raw_json_data p
    = match first_endswith ".json" files with
      | Some json_file =>
          if path_exists username json_file then open_json username json_file else None
      | None => None
      end.
Proof.
  unfold metadata_unusable, read_metadata.
  destruct (first_endswith ".json" files) as [json_file|]; [|done].
  intros [Hexists|[Hopen|(v & Hopen & Hv)]].
  - by rewrite Hexists.
  - rewrite Hopen. by destruct (path_exists username json_file).
  - rewrite Hopen. destruct (path_exists username json_file); [|done].
    destruct v; try done. by destruct (Hv d).
Qed.

(** X11. When the group has no metadata record to read, the post is still
    built: its four counters are unknown, its body comes from the caption
    file alone (none without one), and the loaded value, when the file
    could be loaded but is no record, is still kept as the raw payload. *)
Theorem unusable_metadata_degrades (username : string) (user_id : nat)
    (tweet_id : string) (files : list string) :
  metadata_unusable username files →
  let p := extract_post username user_id tweet_id files in
  (Post.retweet_count p = JNull ∧ Post.reply_count p = JNull
   ∧ Post.favorite_count p = JNull ∧ Post.bookmark_count p = JNull)
  ∧ (∀ txt_file content,
       first_endswith ".txt" files = Some txt_file →
       open_text username txt_file = Some content →
       Py.readlines content ≠ [] →
       Post.text_content p = caption_body (Py.readlines content))
  ∧ (first_endswith ".txt" files = None → Post.text_content p = JNull)
  ∧ (∀ json_file v,
       first_endswith ".json" files = Some json_file →
       path_exists username json_file = true →
       open_json username json_file = Some v →
       Post.raw_json_data p = Some v)
  ∧ (first_endswith ".json" files = None → Post.raw_json_data p = None).
Proof.
  intros Hunusable p.
  destruct (read_metadata_unusable username files tweet_id user_id Hunusable)
    as (Htext & Hrt & Hrp & Hfav & Hbm & Hraw).
  destruct (read_caption_frame username files
              (read_metadata username files (empty_post tweet_id user_id)))
    as (Hrt' & Hrp' & Hfav' & Hbm' & Hraw').
  subst p. unfold extract_post. cbn [set_media_and_timestamp Post.retweet_count
    Post.reply_count Post.favorite_count Post.bookmark_count Post.text_content
    Post.raw_json_data].
  split; [by rewrite Hrt', Hrp', Hfav', Hbm'|].
  split; [|split; [|split]].
  - intros txt_file content Htxt Hopen Hlines.
    apply (read_caption_fills username files _ txt_file content); [by rewrite Htext|done..].
  - intros Hnone. unfold read_caption. by rewrite Hnone.
  - intros json_file v Hfile Hexists Hopen. by rewrite Hraw', Hraw, Hfile, Hexists.
  - intros Hnone. by rewrite Hraw', Hraw, Hnone.
Qed.

End EdgeFacts.

(** ** The author aggregator *)

Lemma insert_descending_perm (x : string) (l : list string) :
  insert_descending x l ≡ₚ x :: l.
Proof.
  induction l as [|y r IH]; simpl; [done|].
  destruct (String.leb y x); [done|]. rewrite IH. apply Permutation_swap.
Qed.

Lemma sorted_reverse_perm (l : list string) : sorted_reverse l ≡ₚ l.
Proof.
  induction l as [|x l IH]; simpl; [done|].
  rewrite insert_descending_perm. by rewrite IH.
Qed.

Lemma insert_descending_sorted (x : string) (l : list string) :
  StronglySorted (flip String.le) l → StronglySorted (flip String.le) (insert_descending x l).
Proof.
  induction 1 as [|y r Hr IH Hall]; simpl.
  - constructor; [constructor|constructor].
  - destruct (String.leb y x) eqn:Hyx.
    + constructor; [by constructor|].
      assert (Hle : String.le y x) by (unfold String.le; by rewrite Hyx).
      constructor; [done|].
      eapply Forall_impl; [exact Hall|]. intros z Hz. unfold flip in *. by etrans.
    + constructor; [done|].
      assert (Hle : String.le x y).
      { destruct (total String.le x y) as [Hxy|Hxy]; [done|].
        unfold String.le in Hxy. by rewrite Hyx in Hxy. }
      rewrite insert_descending_perm. by constructor.
Qed.

Lemma sorted_reverse_sorted (l : list string) :
  StronglySorted (flip String.le) (sorted_reverse l).
Proof.
  induction l as [|x l IH]; simpl; [constructor|]. by apply insert_descending_sorted.
Qed.

Lemma dict_get_present (d : list (string * jvalue)) (k : string) (v default : jvalue) :
  dict_lookup k d = Some v → dict_get d k default = v.
Proof. intros Hk. unfold dict_get. by rewrite Hk. Qed.

Lemma dict_get_absent (d : list (string * jvalue)) (k : string) (default : jvalue) :
  dict_lookup k d = None → dict_get d k default = default.
Proof. intros Hk. unfold dict_get. by rewrite Hk. Qed.

Section AggregatorFacts.
Context `{FileSystem} `{Runtime}.

Lemma collect_user_json_cons username candidate rest :
  collect_user_json username (candidate :: rest)
  = match names_author username candidate with
    | Some user_info => user_info
    | None => collect_user_json username rest
    end.
Proof. unfold names_author. simpl. by destruct (open_json username candidate). Qed.

Lemma collect_user_json_none username candidates :
  (∀ g, g ∈ candidates → names_author username g = None) →
  collect_user_json username candidates = [].
Proof.
  induction candidates as [|g r IH]; intros Hnone; [done|].
  rewrite collect_user_json_cons, (Hnone g) by (apply elem_of_cons; by left).
  apply IH. intros g' Hg'. apply Hnone, elem_of_cons. by right.
Qed.

Lemma collect_user_json_greatest username candidates f d :
  StronglySorted (flip String.le) candidates →
  f ∈ candidates →
  names_author username f = Some d →
  (∀ g, g ∈ candidates → is_Some (names_author username g) → String.le g f) →
  collect_user_json username candidates = d.
Proof.
  induction 1 as [|g r Hr IH Hall]; intros Hf Hd Hmax; [by apply elem_of_nil in Hf|].
  rewrite collect_user_json_cons.
  destruct (names_author username g) as [d'|] eqn:Hg.
  - apply elem_of_cons in Hf as [->|Hf]; [congruence|].
    assert (Hfg : String.le f g) by (rewrite Forall_forall in Hall; by apply Hall).
    assert (Hgf : String.le g f) by (apply Hmax; [apply elem_of_cons; by left|by rewrite Hg]).
    assert (g = f) as -> by (by apply (anti_symm String.le)). congruence.
  - apply elem_of_cons in Hf as [->|Hf]; [congruence|].
    apply IH; [done|done|]. intros g' Hg' Hsome. apply Hmax; [|done].
    apply elem_of_cons. by right.
Qed.

Lemma json_candidates (names : list string) (g : string) :
  g ∈ sorted_reverse (List.filter (fun f => Py.endswith f ".json") names)
  ↔ g ∈ names ∧ Py.endswith g ".json" = true.
Proof.
  rewrite sorted_reverse_perm, list_elem_of_In, filter_In, <- list_elem_of_In. done.
Qed.

(** X12. Among the [.json] files of the directory that can be loaded and
    name the author, the one with the greatest name supplies the profile:
    the author row is merged with the author record of that file. *)
Theorem greatest_matching_file_supplies_profile (username : string) (names : list string)
    (db_user : User.t) (f : string) (d : list (string * jvalue)) :
  f ∈ names →
  Py.endswith f ".json" = true →
  names_author username f = Some d →
  (∀ g, g ∈ names → Py.endswith g ".json" = true →
        is_Some (names_author username g) → String.leb g f = true) →
  refresh_profile username names db_user = update_user_fields db_user d.
Proof.
  intros Hf Hjson Hd Hmax. unfold refresh_profile. f_equal.
  apply (collect_user_json_greatest username _ f d).
  - apply sorted_reverse_sorted.
  - by apply json_candidates.
  - done.
  - intros g Hg Hsome. apply json_candidates in Hg as [Hg Hgjson].
    unfold String.le. by rewrite (Hmax g Hg Hgjson Hsome).
Qed.

(** X13. When no [.json] file of the directory can be loaded and names
    the author (in particular when there is none), the refresh leaves the
    author row exactly as it was. *)
Theorem profile_unchanged_without_match (username : string) (names : list string)
    (db_user : User.t) :
  (∀ g, g ∈ names → Py.endswith g ".json" = true → names_author username g = None) →
  refresh_profile username names db_user = db_user.
Proof.
  intros Hnone. unfold refresh_profile.
  rewrite collect_user_json_none; [apply update_user_fields_nothing|].
  intros g Hg. apply json_candidates in Hg as [Hg Hjson]. by apply Hnone.
Qed.

(** X14. Which record a loaded metadata file supplies. With a non-empty
    [author] record, it is that record, and it is supplied exactly when
    its [nick] or [name] is the handle or the [nick] of the file's [user]
    record is the handle. Without an [author] entry, a non-empty [user]
    record is supplied exactly when its [nick] or [name] is the handle.
    A file whose content is no record supplies nothing. *)
Theorem author_record_selection (username : string) (top : list (string * jvalue)) :
  (∀ d, dict_lookup "author" top = Some (JObject d) → d ≠ [] →
     catch (user_info_of username (JObject top)) None
     = if eq_str (dict_get d "nick" JNull) username
          || eq_str (dict_get d "name" JNull) username
          || match dict_lookup "user" top with
             | Some (JObject u) => eq_str (dict_get u "nick" JNull) username
             | _ => false
             end
       then Some d else None)
  ∧ (∀ u, dict_lookup "author" top = None →
       dict_lookup "user" top = Some (JObject u) → u ≠ [] →
       catch (user_info_of username (JObject top)) None
       = if eq_str (dict_get u "nick" JNull) username
            || eq_str (dict_get u "name" JNull) username
         then Some u else None)
  ∧ (∀ data, (∀ fields, data ≠ JObject fields) →
       catch (user_info_of username data) None = None).
Proof.
  split; [|split].
  - intros d Hauthor Hd.
    assert (Htruthy : truthy (JObject d) = true) by (by destruct d).
    unfold user_info_of, names_user. cbn [py_get py_get_or_empty exn_bind].
    rewrite !(dict_get_present top "author" (JObject d)) by done.
    rewrite Htruthy. cbn [py_get exn_bind]. rewrite Htruthy.
    destruct (eq_str (dict_get d "nick" JNull) username) eqn:Hnick; [done|].
    destruct (eq_str (dict_get d "name" JNull) username) eqn:Hname; [done|].
    cbn [orb]. unfold dict_get at 1.
    destruct (dict_lookup "user" top) as [user|]; [|done].
    destruct user as [| | | | | |u]; try done. cbn [py_get exn_bind catch].
    by destruct (eq_str (dict_get u "nick" JNull) username).
  - intros u Hauthor Huser Hu.
    assert (Htruthy : truthy (JObject u) = true) by (by destruct u).
    unfold user_info_of, names_user. cbn [py_get py_get_or_empty exn_bind].
    rewrite !(dict_get_absent top "author") by done.
    rewrite !(dict_get_present top "user" (JObject u)) by done.
    change (truthy JNull) with false. cbn [py_get exn_bind]. rewrite Htruthy.
    destruct (eq_str (dict_get u "nick" JNull) username) eqn:Hnick; [done|].
    by destruct (eq_str (dict_get u "name" JNull) username) eqn:Hname.
  - intros data Hdata. destruct data as [| | | | | |fields]; try done. by destruct (Hdata fields).
Qed.

End AggregatorFacts.

(** * The sweeps of [cli.py] and [run.py] *)

Section SweepFacts.
Context `{FileSystem} `{Runtime} `{ArchiveRoot}.







Lemma sweep_monotone user_dirs total_new total_deleted st st' a d :
  scan_users false user_dirs total_new total_deleted st = (SweepDone a d, st') →
  d = total_deleted ∧ ∀ k p, posts st !! k = Some p → posts st' !! k = Some p.
Proof.
  revert total_new total_deleted st.
  induction user_dirs as [|username rest IH]; intros total_new total_deleted st Hrun;
    simpl in Hrun.
  - by simplify_eq.
  - destruct (process_and_cache_user_posts username false st) as [[new_count deleted_count|] st1]
      eqn:Hsync; [|done].
    destruct (incremental_sync_monotone username st st1 new_count deleted_count Hsync)
      as [-> Hmono].
    destruct (IH _ _ _ Hrun) as [-> Hrest]. split; [lia|]. auto.
Qed.


(** X15. A scheduled sweep that completes reports no deleted post and
    leaves every post that was stored in place. *)
Theorem auto_scan_never_deletes (st st' : Store) (total_new total_deleted : nat) :
  auto_scan_all_users_job st = (SweepDone total_new total_deleted, st') →
  total_deleted = 0%nat ∧ ∀ k p, posts st !! k = Some p → posts st' !! k = Some p.
Proof.
  unfold auto_scan_all_users_job. destruct root_isdir; [|done].
  destruct root_listdir as [names|]; [|done]. simpl. apply sweep_monotone.
Qed.



Lemma scan_users_app force before rest total_new total_deleted st a d st1 :
  scan_users force before total_new total_deleted st = (SweepDone a d, st1) →
  scan_users force (before ++ rest) total_new total_deleted st
  = scan_users force rest a d st1.
Proof.
  revert total_new total_deleted st.
  induction before as [|username before IH]; intros total_new total_deleted st Hrun;
    simpl in *.
  - by simplify_eq.
  - destruct (process_and_cache_user_posts username force st) as [[new_count deleted_count|] st']
      eqn:Hsync; [|done]. by apply IH.
Qed.

(** X18. A sweep stops at the first author whose directory cannot be
    listed: the exception leaves the loop, the authors before it are
    synced, the author itself has at most gained a row, and no author
    after it is processed. *)
Theorem sweep_stops_at_unlistable (force_rescan : bool) (before rest : list string)
    (username : string) (st st1 : Store) (a d : nat) :
  scan_users force_rescan before 0 0 st = (SweepDone a d, st1) →
  isdir username = true →
  listdir username = None →
  scan_users force_rescan (before ++ username :: rest) 0 0 st
  = (SweepRaised, (ensure_user username st1).2)
  ∧ posts (ensure_user username st1).2 = posts st1.
Proof.
  intros Hbefore Hdir Hlist.
  rewrite (scan_users_app _ _ _ _ _ _ _ _ _ Hbefore). simpl.
  destruct (sync_cases username force_rescan st1 Hdir)
    as [[_ Hr]|[(names & Hl & _)|(names & start & Hl & _)]]; [|congruence..].
  rewrite Hr. split; [done|]. apply ensure_user_query.
Qed.

End SweepFacts.

(** * The routes *)

(** ** Handles accepted by the routes *)

Lemma contains_char_append (c : ascii) (s t : string) :
  contains_char c (s +:+ t) = contains_char c s || contains_char c t.
Proof.
  induction s as [|d s IH]; [done|]. rewrite append_cons. simpl.
  by rewrite IH, orb_assoc.
Qed.

Lemma word_chars_exclude (c : ascii) (w : string) :
  is_word_char c = false → all_word_chars w = true → contains_char c w = false.
Proof.
  intros Hc. induction w as [|d w IH]; simpl; [done|].
  intros [Hd Hw]%andb_true_iff. rewrite (IH Hw), orb_false_r.
  destruct (Ascii.eqb_spec d c) as [->|_]; [congruence|done].
Qed.

Lemma after_word_run_split (s : string) :
  ∃ w, s = w +:+ after_word_run s
       ∧ all_word_chars w = true
       ∧ starts_with_word_char (after_word_run s) = false
       ∧ (starts_with_word_char s = true → w ≠ "").
Proof.
  induction s as [|c t (w & Heq & Hw & Hrest & _)].
  - by exists "".
  - simpl. destruct (is_word_char c) eqn:Hc.
    + exists (String c w). rewrite append_cons, <- Heq. simpl. by rewrite Hc, Hw.
    + exists "". simpl. by rewrite Hc.
Qed.

Lemma after_word_run_of_word (w tail : string) :
  all_word_chars w = true → starts_with_word_char tail = false →
  after_word_run (w +:+ tail) = tail.
Proof.
  intros Hw Htail. induction w as [|c w IH].
  - rewrite append_empty_l. destruct tail as [|d tail]; [done|]. simpl in *. by rewrite Htail.
  - rewrite append_cons. simpl in *. apply andb_true_iff in Hw as [-> Hw]. by apply IH.
Qed.

Lemma append_empty_r (s : string) : s +:+ "" = s.
Proof. induction s as [|c s IH]; [done|]. by rewrite append_cons, IH. Qed.

(** X19. A handle passes [is_valid_username] exactly when it is a
    non-empty run of ASCII letters, digits and underscores, possibly
    followed by one final newline; a handle that passes contains no slash,
    no backslash and no dot. *)
Theorem valid_username_shape (username : string) :
  (is_valid_username username = true
   ↔ ∃ w, w ≠ "" ∧ all_word_chars w = true
          ∧ (username = w ∨ username = w +:+ String "010" ""))
  ∧ (is_valid_username username = true →
     contains_char "/" username = false
     ∧ contains_char "092" username = false
     ∧ contains_char "." username = false).
Proof.
  assert (Hshape : is_valid_username username = true →
    ∃ w, w ≠ "" ∧ all_word_chars w = true
         ∧ (username = w ∨ username = w +:+ String "010" "")).
  { unfold is_valid_username. intros [Hstart Hrest]%andb_true_iff.
    destruct (after_word_run_split username) as (w & Heq & Hw & _ & Hne).
    exists w. split; [by apply Hne|]. split; [done|].
    apply orb_true_iff in Hrest as [Hrest|Hrest].
    - left. destruct (after_word_run username); [|done]. by rewrite append_empty_r in Heq.
    - right. apply String.eqb_eq in Hrest. by rewrite Hrest in Heq. }
  split; [split; [done|]|].
  - intros (w & Hne & Hw & Hcase). unfold is_valid_username.
    assert (Hstart : starts_with_word_char username = true).
    { destruct w as [|c w]; [done|]. simpl in Hw. apply andb_true_iff in Hw as [Hc _].
      destruct Hcase as [-> | ->]; [done|]. by rewrite append_cons. }
    rewrite Hstart. simpl. destruct Hcase as [-> | ->].
    + rewrite <- (append_empty_r w) at 1. by rewrite (after_word_run_of_word w "").
    + by rewrite (after_word_run_of_word w (String "010" "")).
  - intros Hvalid. destruct (Hshape Hvalid) as (w & _ & Hw & [-> | ->]);
      rewrite ?contains_char_append, !(word_chars_exclude _ w) by done; done.
Qed.

(** ** Paths of media requests *)

Lemma split_on_nonempty (sep : ascii) (s : string) : split_on sep s ≠ [].
Proof.
  induction s as [|c t IH]; simpl; [done|].
  destruct (Ascii.eqb c sep); [done|]. by destruct (split_on sep t).
Qed.

Lemma split_on_no_sep (sep : ascii) (s : string) :
  Forall (fun c => contains_char sep c = false) (split_on sep s).
Proof.
  induction s as [|c t IH]; simpl; [by repeat constructor|].
  destruct (Ascii.eqb c sep) eqn:Hc; [by constructor|].
  destruct (split_on sep t) as [|h r].
  { constructor; [simpl; by rewrite Hc|constructor]. }
  apply Forall_cons in IH as [Hh Hr]. constructor; [|done]. simpl. by rewrite Hc, Hh.
Qed.

Lemma split_on_plain (sep : ascii) (s : string) :
  contains_char sep s = false → split_on sep s = [s].
Proof.
  induction s as [|c t IH]; simpl; [done|].
  intros [Hc Ht]%orb_false_iff. rewrite Hc, (IH Ht). done.
Qed.

Lemma split_on_append (sep : ascii) (x rest : string) :
  contains_char sep x = false →
  split_on sep (x +:+ String sep "" +:+ rest) = x :: split_on sep rest.
Proof.
  induction x as [|c x IH]; intros Hx.
  - rewrite append_empty_l, append_cons, append_empty_l. simpl. by rewrite Ascii.eqb_refl.
  - simpl in Hx. apply orb_false_iff in Hx as [Hc Hx]. rewrite append_cons. simpl.
    by rewrite Hc, (IH Hx).
Qed.

Lemma split_join (sep : ascii) (l : list string) :
  l ≠ [] → Forall (fun c => contains_char sep c = false) l →
  split_on sep (join_with (String sep "") l) = l.
Proof.
  induction l as [|x [|y r] IH]; intros Hne Hall; [done|..].
  - apply Forall_cons in Hall as [Hx _]. by apply split_on_plain.
  - apply Forall_cons in Hall as [Hx Hrest].
    change (join_with (String sep "") (x :: y :: r))
      with (x +:+ String sep "" +:+ join_with (String sep "") (y :: r)).
    rewrite (split_on_append sep x _ Hx). f_equal. by apply IH.
Qed.

Lemma startswith_append (p s : string) : startswith (p +:+ s) p = true.
Proof.
  induction p as [|c p IH]; [by destruct s|].
  rewrite append_cons. simpl. by rewrite Ascii.eqb_refl, IH.
Qed.

Lemma join_with_head (sep x : string) (r : list string) :
  ∃ tail, join_with sep (x :: r) = x +:+ tail.
Proof.
  destruct r as [|y r].
  - exists "". by rewrite append_empty_r.
  - by exists (sep +:+ join_with sep (y :: r)).
Qed.

Lemma last_repeat {A} (x d : A) (n : nat) : List.last (repeat x (S n)) d = x.
Proof. induction n as [|n IH]; [done|]. exact IH. Qed.

(** The shape the relative walk of [normpath] keeps: leading [..]
    components, then components that name entries. *)
Lemma normpath_step_shape (new_comps : list string) (comp : string) :
  (∃ n names, new_comps = repeat ".." n ++ names ∧ Forall proper_component names) →
  contains_char "/" comp = false →
  ∃ n names, normpath_step false new_comps comp = repeat ".." n ++ names
             ∧ Forall proper_component names.
Proof.
  intros (n & names & -> & Hnames) Hcomp. unfold normpath_step.
  destruct (String.eqb_spec comp "") as [->|Hempty]; [by exists n, names|].
  destruct (String.eqb_spec comp ".") as [->|Hdot]; [by exists n, names|].
  cbn [orb negb andb].
  destruct (String.eqb_spec comp "..") as [->|Hdotdot]; cbn [orb negb andb].
  - destruct names as [|x names _] using rev_ind.
    + rewrite app_nil_r. destruct n as [|n].
      * by exists 1%nat, [].
      * exists (S (S n)), []. rewrite app_nil_r, last_repeat.
        change (is_nil (repeat ".." (S n))) with false.
        change (String.eqb ".." "..") with true. cbn [orb negb andb]. split; [|done].
        change (repeat ".." (S (S n))) with (".." :: repeat ".." (S n)).
        by rewrite repeat_cons.
    + apply Forall_app in Hnames as [Hnames Hx]. apply Forall_inv in Hx.
      rewrite app_assoc, last_last.
      assert (Hnil : is_nil ((repeat ".." n ++ names) ++ [x]) = false)
        by (by destruct (repeat ".." n ++ names)).
      rewrite Hnil. cbn [orb negb andb].
      destruct (String.eqb_spec x "..") as [->|_]; [by destruct Hx as (_ & _ & ? & _)|].
      rewrite removelast_last. by exists n, names.
  - exists n, (names ++ [comp]). rewrite app_assoc. split; [done|].
    apply Forall_app. split; [done|]. by apply Forall_singleton.
Qed.

Lemma normpath_fold_shape (comps new_comps : list string) :
  (∃ n names, new_comps = repeat ".." n ++ names ∧ Forall proper_component names) →
  Forall (fun c => contains_char "/" c = false) comps →
  ∃ n names, fold_left (normpath_step false) comps new_comps = repeat ".." n ++ names
             ∧ Forall proper_component names.
Proof.
  revert new_comps. induction comps as [|c comps IH]; intros new_comps Hshape Hall; [done|].
  apply Forall_cons in Hall as [Hc Hall]. simpl. apply IH; [|done].
  by apply normpath_step_shape.
Qed.

Lemma join_proper_nonempty (names : list string) :
  names ≠ [] → Forall proper_component names →
  Py.is_empty (join_with "/" names) = false.
Proof.
  destruct names as [|x r]; [done|]. intros _ [Hx _]%Forall_cons.
  destruct (join_with_head "/" x r) as [tail ->].
  destruct x as [|c x]; [by destruct Hx|done].
Qed.

(** What [normpath] returns when the result is neither absolute nor
    begins with two dots. *)
Lemma normpath_relative_shape (path : string) :
  startswith (normpath path) "/" = false →
  startswith (normpath path) ".." = false →
  normpath path = "."
  ∨ ∃ names, names ≠ [] ∧ Forall proper_component names
             ∧ normpath path = join_with "/" names.
Proof.
  unfold normpath. destruct (Py.is_empty path) eqn:Hempty; [by left|].
  destruct (startswith path "/") eqn:Habs.
  { intros Hrel. exfalso. revert Hrel.
    destruct (startswith path "//" && negb (startswith path "///")); simpl; [done|].
    rewrite append_empty_l. by destruct (join_with "/" _). }
  simpl. rewrite append_empty_l.
  destruct (normpath_fold_shape (split_on "/" path) [])
    as (n & names & Hfold & Hnames); [by exists 0%nat, []|apply split_on_no_sep|].
  rewrite Hfold. intros _ Hdots.
  destruct n as [|n].
  - simpl in *. destruct names as [|x r]; [by left|]. right.
    rewrite (join_proper_nonempty (x :: r)) by done. by exists (x :: r).
  - exfalso. destruct (join_with_head "/" ".." (repeat ".." n ++ names)) as [tail Hjoin].
    change (repeat ".." (S n) ++ names) with (".." :: repeat ".." n ++ names) in Hdots.
    rewrite Hjoin in Hdots. simpl in Hdots. by destruct tail.
Qed.

Section MediaRoute.
Context `{HostFiles}.

(** X20. Whatever path is requested, [serve_media] hands a file to
    [send_from_directory] only as the folder of one author below the root
    and a relative path below it: every component names an entry (none is
    empty, [.] or [..]), so the request cannot leave the author's folder;
    the folder exists and so does the file. *)
Theorem serve_media_stays_below_root (filename directory path : string) :
  serve_media filename = SendFromDirectory directory path →
  ∃ user_dirname comps,
    proper_component user_dirname
    ∧ comps ≠ [] ∧ Forall proper_component comps
    ∧ directory = Py.path_join ROOT_DATA_FOLDER user_dirname
    ∧ path = join_with "/" comps
    ∧ os_path_isdir directory = true
    ∧ os_path_exists (Py.path_join directory path) = true.
Proof.
  unfold serve_media.
  destruct (startswith (normpath filename) "..") eqn:Hdots; [done|].
  destruct (startswith (normpath filename) "/") eqn:Habs; [done|]. simpl.
  destruct (normpath_relative_shape filename Habs Hdots)
    as [Hdot|(names & Hne & Hnames & Hnorm)].
  { by rewrite Hdot. }
  rewrite Hnorm, split_join; [|done|].
  2:{ eapply Forall_impl; [exact Hnames|]. by intros c (_ & _ & _ & ?). }
  destruct names as [|u [|c comps]]; [done|done|].
  cbn [length Nat.ltb Nat.leb hd tl].
  destruct (os_path_isdir _) eqn:Hdir; [|done].
  destruct (os_path_exists _) eqn:Hexists; [|done]. simpl.
  intros [= <- <-]. apply Forall_cons in Hnames as [Hu Hcomps].
  by exists u, (c :: comps).
Qed.

End MediaRoute.

Lemma replace_char_absent (a b : ascii) (s : string) :
  contains_char a s = false → Py.replace_char a b s = s.
Proof.
  induction s as [|c s IH]; simpl; [done|].
  intros [Hc Hs]%orb_false_iff. by rewrite Hc, (IH Hs).
Qed.

Lemma endswith_needs_char (c : ascii) (s : string) :
  contains_char c s = false → Py.endswith s (String c "") = false.
Proof.
  induction s as [|d s IH]; simpl; [done|].
  intros [Hd Hs]%orb_false_iff. rewrite (IH Hs), orb_false_r.
  destruct s as [|e s]; simpl; [by rewrite Hd|].
  by rewrite Hd.
Qed.

Lemma proper_component_head (c : string) :
  proper_component c → ∃ a t, c = String a t ∧ a ≠ "/"%char.
Proof.
  intros (Hne & _ & _ & Hslash). destruct c as [|a t]; [done|].
  exists a, t. split; [done|]. intros ->. simpl in Hslash. done.
Qed.

Lemma startswith_nil (s : string) : startswith s "" = true.
Proof. by destruct s. Qed.

Lemma no_leading_dots_append (c tail : string) :
  proper_component c → startswith c ".." = false →
  startswith (c +:+ "/" +:+ tail) ".." = false.
Proof.
  intros (Hne & _ & _ & _) Hdots. change ("/" +:+ tail) with (String "/" tail).
  destruct c as [|a [|b c]]; [done| |].
  - rewrite append_cons, append_empty_l. cbn [startswith].
    change (Ascii.eqb "." "/") with false. by rewrite andb_false_r.
  - rewrite !append_cons. cbn [startswith] in *.
    by rewrite startswith_nil in *.
Qed.

Lemma proper_not_absolute (c tail : string) :
  proper_component c → startswith (c +:+ tail) "/" = false.
Proof.
  intros Hc. destruct (proper_component_head c Hc) as (a & t & -> & Ha).
  rewrite append_cons. cbn [startswith].
  destruct (Ascii.eqb_spec "/" a) as [<-|_]; [done|done].
Qed.

Lemma proper_append_nonempty (c tail : string) :
  proper_component c → Py.is_empty (c +:+ tail) = false.
Proof. intros Hc. by destruct (proper_component_head c Hc) as (a & t & -> & Ha). Qed.

Section MediaRoundTrip.
Context `{HostFiles} `{Runtime}.

(** X21. A media path the extractor stores for a plain handle and a
    plain file name (one component each, no backslash, the handle not
    beginning with two dots) is resolved by [serve_media] to that author's
    folder and that file, when both exist. *)
Theorem stored_media_path_is_served (username filename : string) :
  proper_component username →
  startswith username ".." = false →
  contains_char "092" username = false →
  proper_component filename →
  contains_char "092" filename = false →
  os_path_isdir (Py.path_join ROOT_DATA_FOLDER username) = true →
  os_path_exists (Py.path_join (Py.path_join ROOT_DATA_FOLDER username) filename) = true →
  media_path username filename = username +:+ "/" +:+ filename
  ∧ serve_media (media_path username filename)
    = SendFromDirectory (Py.path_join ROOT_DATA_FOLDER username) filename.
Proof.
  intros Hu Hudots Hub Hf Hfb Hdir Hexists.
  destruct (proper_component_head username Hu) as (a & u & -> & Ha).
  destruct (proper_component_head filename Hf) as (b & f & -> & Hb).
  set (user := String a u) in *. set (file := String b f) in *.
  assert (Huslash : contains_char "/" user = false) by (by destruct Hu as (_ & _ & _ & ?)).
  assert (Hfslash : contains_char "/" file = false) by (by destruct Hf as (_ & _ & _ & ?)).
  assert (Hpath : media_path user file = user +:+ "/" +:+ file).
  { unfold media_path, Py.path_join.
    rewrite (endswith_needs_char "/" user Huslash). simpl.
    destruct (Ascii.eqb_spec b "/") as [->|_]; [done|].
    assert (Hjoin : (match file with
                     | String "/"%char _ => file
                     | _ => user +:+ "/" +:+ file
                     end) = user +:+ "/" +:+ file).
    { subst file. destruct b as [[] [] [] [] [] [] [] []]; try done. }
    subst file user. rewrite Hjoin, !replace_char_append.
    by rewrite (replace_char_absent _ _ _ Hub), (replace_char_absent _ _ _ Hfb). }
  split; [done|]. rewrite Hpath. unfold serve_media.
  assert (Hsplit : split_on "/" (user +:+ "/" +:+ file) = [user; file]).
  { rewrite (split_on_append "/" user file Huslash). by rewrite (split_on_plain "/" file). }
  assert (Hnorm : normpath (user +:+ "/" +:+ file) = user +:+ "/" +:+ file).
  { unfold normpath. rewrite Hsplit.
    rewrite (proper_not_absolute user _ Hu), (proper_append_nonempty user _ Hu).
    cbn [Nat.eqb negb fold_left].
    assert (Hstep : ∀ acc c, proper_component c →
                             normpath_step false acc c = acc ++ [c]).
    { intros acc c (Hne & Hdot & Hdotdot & _). unfold normpath_step.
      destruct (String.eqb_spec c "") as [?|_]; [done|].
      destruct (String.eqb_spec c ".") as [?|_]; [done|].
      by destruct (String.eqb_spec c "..") as [?|_]. }
    rewrite (Hstep [] user Hu). cbn [app]. rewrite (Hstep [user] file Hf).
    cbn [app repeat join_with]. rewrite append_empty_l.
    by rewrite (proper_append_nonempty user _ Hu). }
  rewrite Hnorm, Hsplit, (no_leading_dots_append user file Hu Hudots).
  rewrite (proper_not_absolute user _ Hu).
  cbn [orb length Nat.ltb Nat.leb hd tl join_with]. by rewrite Hdir, Hexists.
Qed.

End MediaRoundTrip.

(** ** The page of all posts *)

Lemma omap_all_some {A B} (f : A → option B) (g : B → A) (l : list A) :
  (∀ x, x ∈ l → ∃ y, f x = Some y ∧ g y = x) → map g (omap f l) = l.
Proof.
  induction l as [|x l IH]; intros Hall; [done|].
  destruct (Hall x) as (y & Hy & Hg); [apply elem_of_cons; by left|].
  cbn. rewrite Hy. cbn. rewrite Hg, IH; [done|].
  intros z Hz. apply Hall, elem_of_cons. by right.
Qed.

Lemma length_omap_all_some {A B} (f : A → option B) (l : list A) :
  (∀ x, x ∈ l → is_Some (f x)) → length (omap f l) = length l.
Proof.
  induction l as [|x l IH]; intros Hall; [done|].
  destruct (Hall x) as [y Hy]; [apply elem_of_cons; by left|].
  cbn. rewrite Hy. cbn. f_equal. apply IH. intros z Hz. apply Hall, elem_of_cons. by right.
Qed.

Lemma strongly_sorted_by_key {A} (key : A → string) (l : list A) :
  StronglySorted (flip String.le) (map key l) →
  NoDup (map key l) →
  StronglySorted (fun p q => String.le (key q) (key p) ∧ key p ≠ key q) l.
Proof.
  induction l as [|x l IH]; intros Hsorted Hnodup; [constructor|].
  simpl in *. apply StronglySorted_inv in Hsorted as [Hrest Hall].
  apply NoDup_cons in Hnodup as [Hx Hnodup].
  constructor; [by apply IH|].
  rewrite Forall_forall. intros y Hy. split.
  - rewrite Forall_forall in Hall. apply Hall, list_elem_of_fmap. by exists y.
  - intros Heq. apply Hx, list_elem_of_fmap. by exists y.
Qed.

Lemma posts_by_id_desc_keys user_id (rows : gmap string Post.t) k :
  k ∈ sorted_reverse (map fst (map_to_list (posts_of user_id rows)))
  ↔ ∃ p, rows !! k = Some p ∧ Post.user_id p = user_id.
Proof.
  rewrite sorted_reverse_perm, list_elem_of_fmap. split.
  - intros ([k' p] & -> & Hin). apply elem_of_map_to_list in Hin.
    apply map_lookup_filter_Some in Hin as [Hk Hid]. by exists p.
  - intros (p & Hk & Hid). exists (k, p). split; [done|].
    apply elem_of_map_to_list, map_lookup_filter_Some. done.
Qed.

Lemma posts_by_id_desc_spec user_id (rows : gmap string Post.t) :
  (∀ p, p ∈ posts_by_id_desc user_id rows
        ↔ ∃ k, rows !! k = Some p ∧ Post.user_id p = user_id)
  ∧ length (posts_by_id_desc user_id rows) = size (posts_of user_id rows)
  ∧ ((∀ k p, rows !! k = Some p → Post.id p = k) →
     StronglySorted (fun p q => String.le (Post.id q) (Post.id p) ∧ Post.id p ≠ Post.id q)
       (posts_by_id_desc user_id rows)).
Proof.
  unfold posts_by_id_desc.
  set (keys := sorted_reverse (map fst (map_to_list (posts_of user_id rows)))).
  assert (Hkeys : ∀ k, k ∈ keys ↔ ∃ p, rows !! k = Some p ∧ Post.user_id p = user_id)
    by apply posts_by_id_desc_keys.
  split; [|split].
  - intros p. rewrite list_elem_of_omap. split.
    + intros (k & Hk & Hp). exists k. split; [done|].
      apply Hkeys in Hk as (q & Hq & Hid). congruence.
    + intros (k & Hp & Hid). exists k. split; [|done]. apply Hkeys. by exists p.
  - rewrite length_omap_all_some.
    + unfold keys. rewrite (Permutation_length (sorted_reverse_perm _)).
      rewrite length_map. apply length_map_to_list.
    + intros k Hk. apply Hkeys in Hk as (p & Hp & _). by exists p.
  - intros Hid.
    assert (Hmap : map Post.id (omap (fun k => rows !! k) keys) = keys).
    { apply omap_all_some. intros k Hk. apply Hkeys in Hk as (p & Hp & _).
      exists p. split; [done|]. by apply Hid. }
    apply strongly_sorted_by_key; rewrite Hmap.
    + apply sorted_reverse_sorted.
    + unfold keys. rewrite sorted_reverse_perm. apply NoDup_fst_map_to_list.
Qed.

Section ViewFacts.
Context `{FileSystem} `{Runtime}.


(** X23. When the page of all posts renders, on a store that meets its
    constraints, the posts it shows are exactly the posts of the author in
    the store it leaves, each once, by strictly descending identifier (as
    strings), and as many as the author has. *)
Theorem all_posts_view_lists_author_posts (username : string) (st st' : Store)
    (db_user : User.t) (shown : list Post.t) :
  store_consistent st →
  user_posts_all username st = (Rendered (db_user, shown), st') →
  query_user st' username = Some db_user
  ∧ (∀ p, p ∈ shown ↔ ∃ k, posts st' !! k = Some p ∧ Post.user_id p = User.id db_user)
  ∧ length shown = size (posts_of (User.id db_user) (posts st'))
  ∧ StronglySorted (fun p q => String.le (Post.id q) (Post.id p) ∧ Post.id p ≠ Post.id q)
      shown.
Proof.
  intros Hst. unfold user_posts_all.
  destruct (is_valid_username username); simpl; [|done].
  destruct (isdir username) eqn:Hdir; simpl; [|done].
  assert (Hrender : ∀ u store,
    store_consistent store → query_user store username = Some u →
    (Rendered (u, posts_by_id_desc (User.id u) (posts store)), store)
      = (Rendered (db_user, shown), st') →
    query_user st' username = Some db_user
    ∧ (∀ p, p ∈ shown ↔ ∃ k, posts st' !! k = Some p ∧ Post.user_id p = User.id db_user)
    ∧ length shown = size (posts_of (User.id db_user) (posts st'))
    ∧ StronglySorted (fun p q => String.le (Post.id q) (Post.id p) ∧ Post.id p ≠ Post.id q)
        shown).
  { intros u store Hstore Hu [= <- <- <-]. split; [done|].
    destruct (posts_by_id_desc_spec (User.id u) (posts store)) as (Hmem & Hlen & Hsorted).
    split; [done|]. split; [done|]. apply Hsorted.
    intros k p Hk. by destruct Hstore as (_ & _ & Hposts); destruct (Hposts k p Hk). }
  pose proof (sync_consistent username false st Hst) as Hst1.
  destruct (query_user st username) as [u|] eqn:Hquery.
  - destruct (Nat.eqb (size (posts_of (User.id u) (posts st))) 0) eqn:Hsize.
    + destruct (process_and_cache_user_posts username false st) as [[added deleted|] st1];
        simpl in *; [|done].
      destruct (query_user st1 username) as [v|] eqn:Hv; [|done]. by apply Hrender.
    + simpl. by apply Hrender.
  - destruct (process_and_cache_user_posts username false st) as [[added deleted|] st1];
      simpl in *; [|done].
    destruct (query_user st1 username) as [v|] eqn:Hv; [|done]. by apply Hrender.
Qed.

End ViewFacts.

(** ** The relative-time label *)

Section RelativeTime.
Context `{Clock}.

(** X24. For a normalized difference the label names at least one year,
    one to twelve months, one to twenty-three hours or one to sixty
    minutes, or says "just now". *)
Theorem relative_time_label_bounds (dt : datetime) :
  0 ≤ seconds (now_minus dt) < 86400 →
  (∃ n, 1 ≤ n ∧ relative_time_filter (Some dt) = pretty n +:+ " 年前")
  ∨ (∃ n, 1 ≤ n ≤ 12 ∧ relative_time_filter (Some dt) = pretty n +:+ " 月前")
  ∨ (∃ n, 1 ≤ n ≤ 23 ∧ relative_time_filter (Some dt) = pretty n +:+ " 小时前")
  ∨ (∃ n, 1 ≤ n ≤ 60 ∧ relative_time_filter (Some dt) = pretty n +:+ " 分钟前")
  ∨ relative_time_filter (Some dt) = "刚刚".
Proof.
  intros [Hlow Hhigh]. unfold relative_time_filter.
  destruct (365 <? days (now_minus dt)) eqn:Hyear.
  { left. exists (days (now_minus dt) / 365). split; [|done].
    apply Z.div_le_lower_bound; lia. }
  destruct (30 <? days (now_minus dt)) eqn:Hmonth.
  { right. left. exists (days (now_minus dt) / 30). split; [|done]. split.
    - apply Z.div_le_lower_bound; lia.
    - apply Z.lt_succ_r, Z.div_lt_upper_bound; lia. }
  destruct (3600 <? seconds (now_minus dt)) eqn:Hhour.
  { right. right. left. exists (seconds (now_minus dt) / 3600). split; [|done]. split.
    - apply Z.div_le_lower_bound; lia.
    - apply Z.lt_succ_r, Z.div_lt_upper_bound; lia. }
  destruct (60 <? seconds (now_minus dt)) eqn:Hminute.
  { right. right. right. left. exists (seconds (now_minus dt) / 60). split; [|done]. split.
    - apply Z.div_le_lower_bound; lia.
    - apply Z.lt_succ_r, Z.div_lt_upper_bound; lia. }
  by repeat right.
Qed.

(** X25. Up to thirty days the day count plays no part in the label: two
    differences of at most thirty days with the same seconds field get the
    same label, and with at most sixty seconds the label is "just now",
    however many of those days have passed. *)
Theorem relative_time_ignores_days (dt dt' : datetime) :
  days (now_minus dt) ≤ 30 →
  (days (now_minus dt') ≤ 30 →
   seconds (now_minus dt') = seconds (now_minus dt) →
   relative_time_filter (Some dt') = relative_time_filter (Some dt))
  ∧ (seconds (now_minus dt) ≤ 60 → relative_time_filter (Some dt) = "刚刚").
Proof.
  intros Hdays. unfold relative_time_filter.
  replace (365 <? days (now_minus dt)) with false by (symmetry; apply Z.ltb_ge; lia).
  replace (30 <? days (now_minus dt)) with false by (symmetry; apply Z.ltb_ge; lia).
  split.
  - intros Hdays' ->.
    replace (365 <? days (now_minus dt')) with false by (symmetry; apply Z.ltb_ge; lia).
    by replace (30 <? days (now_minus dt')) with false by (symmetry; apply Z.ltb_ge; lia).
  - intros Hseconds.
    replace (3600 <? seconds (now_minus dt)) with false by (symmetry; apply Z.ltb_ge; lia).
    by replace (60 <? seconds (now_minus dt)) with false by (symmetry; apply Z.ltb_ge; lia).
Qed.

End RelativeTime.

(** * Closed examples of the further properties *)

Lemma empty_store_consistent : store_consistent Scenario.empty_store.
Proof.
  split; [constructor|]. split; [constructor|].
  intros k p Hk. simpl in Hk. by rewrite lookup_empty in Hk.
Qed.

Lemma bob_store_consistent : store_consistent Scenario.bob_store.
Proof.
  split; [repeat constructor; by intros ?%elem_of_nil|].
  split; [repeat constructor; by intros ?%elem_of_nil|].
  intros k p Hk. simpl in Hk. apply lookup_singleton_Some in Hk as [<- <-].
  split; [done|]. eexists. split; [apply elem_of_cons; by left|done].
Qed.

(** [bob] holds the post 111; an unforced sync of [alice], whose files
    carry the same identifier, leaves it with [bob]. *)
Lemma incremental_sync_keeps_posts_witness :
  ∃ st',
    @process_and_cache_user_posts Scenario.alice_archive Scenario.runtime
      "alice" false Scenario.bob_store = (Returned 0 0, st')
    ∧ posts Scenario.bob_store !! "111" = Some (empty_post "111" 1)
    ∧ posts st' !! "111" = Some (empty_post "111" 1).
Proof.
  eexists. split; [vm_compute; reflexivity|]. split; [reflexivity|].
  eapply (@incremental_sync_keeps_posts Scenario.alice_archive Scenario.runtime
            "alice" Scenario.bob_store _ 0%nat 0%nat);
    [vm_compute; reflexivity|reflexivity].
Defined.


(** The constraints hold after a first sync on the empty store. *)
Lemma sync_keeps_store_consistent_witness :
  store_consistent Scenario.empty_store
  ∧ store_consistent
      (@process_and_cache_user_posts Scenario.alice_archive Scenario.runtime
         "alice" false Scenario.empty_store).2.
Proof.
  split; [exact empty_store_consistent|].
  apply (@sync_keeps_store_consistent Scenario.alice_archive Scenario.runtime).
  exact empty_store_consistent.
Defined.


(** After a sync of [alice] on the store of [bob], [alice] has a row with
    a fresh key and the row of [bob] is as it was. *)
Lemma sync_leaves_author_row_witness :
  (@isdir Scenario.alice_archive "alice" = true
   ∧ store_consistent Scenario.bob_store
   ∧ "bob" ≠ "alice")
  ∧ let st' := (@process_and_cache_user_posts Scenario.alice_archive Scenario.runtime
                  "alice" false Scenario.bob_store).2 in
    (∃ u, query_user st' "alice" = Some u ∧ User.username u = "alice"
          ∧ User.id u ∉ map User.id (users Scenario.bob_store))
    ∧ query_user st' "bob" = query_user Scenario.bob_store "bob".
Proof.
  assert (Hne : "bob" ≠ "alice") by discriminate.
  split; [split; [reflexivity|split; [exact bob_store_consistent|exact Hne]]|].
  destruct (@sync_leaves_author_row Scenario.alice_archive Scenario.runtime
              "alice" false Scenario.bob_store eq_refl) as [(u & Hu & Hname & _ & _ & Hfresh) Hothers].
  split.
  - exists u. split; [exact Hu|]. split; [exact Hname|]. apply Hfresh. reflexivity.
  - apply Hothers; [exact bob_store_consistent|exact Hne].
Defined.

(** The group of 111 in the directory of the scenario. *)
Lemma groups_are_filters_witness :
  let names := ["111_20200101.json"; "notes.txt"; "111_20200101.jpg"] in
  ("111", ["111_20200101.json"; "111_20200101.jpg"])
    ∈ @files_by_tweet_id Scenario.alice_archive "alice" names
  ∧ group_lookup "111" (@files_by_tweet_id Scenario.alice_archive "alice" names)
    = Some ["111_20200101.json"; "111_20200101.jpg"]
  ∧ group_lookup "222" (@files_by_tweet_id Scenario.alice_archive "alice" names) = None.
Proof.
  intros names.
  destruct (@groups_are_filters Scenario.alice_archive "alice" names)
    as (Hlookup & _ & Hgroups).
  assert (Hin : ("111", ["111_20200101.json"; "111_20200101.jpg"])
                  ∈ @files_by_tweet_id Scenario.alice_archive "alice" names)
    by (apply elem_of_cons; by left).
  split; [exact Hin|]. split; [exact (proj1 (Hgroups _ Hin))|].
  rewrite Hlookup. reflexivity.
Defined.


(** A name that carries a 19-digit identifier and then a valid epoch. *)
Lemma long_identifier_hides_epoch_witness :
  (Py.digit_run (Py.splitext_root "1234567890123456789_1600000000.jpg")
     = String "1" "234567890123456789"
   ∧ "1"%char ≠ "0"%char
   ∧ (10 ≤ String.length "234567890123456789")%nat)
  ∧ @timestamp_from_filename Scenario.runtime "1234567890123456789_1600000000.jpg" = None
  ∧ @timestamp_from_filename Scenario.runtime "x_1600000000.jpg"
    = Some (mk_datetime 2020 9 13 12 26 40 0).
Proof.
  assert (Hc : "1"%char ≠ "0"%char) by discriminate.
  assert (Hlen : (10 ≤ String.length "234567890123456789")%nat) by (simpl; lia).
  split; [split; [reflexivity|split; [exact Hc|exact Hlen]]|].
  split; [|reflexivity].
  apply (@long_identifier_hides_epoch Scenario.runtime
           "1234567890123456789_1600000000.jpg" "1" "234567890123456789");
    [reflexivity|exact Hc|exact Hlen].
Defined.


(** The media paths of a group with a backslash in a name. *)
Lemma media_paths_shape_witness :
  let files := ["111_a" +:+ String "092" "b.jpg"; "111_1.json"] in
  (Py.is_empty "alice" = false ∧ Py.endswith "alice" "/" = false
   ∧ ∀ f, f ∈ files → starts_with_digit f = true)
  ∧ Post.media_files
      (@extract_post Scenario.alice_archive Scenario.runtime "alice" 1 "111" files)
    = ["alice/111_a/b.jpg"].
Proof.
  intros files.
  assert (Hdigits : ∀ f, f ∈ files → starts_with_digit f = true).
  { intros f Hf. apply elem_of_cons in Hf as [->|Hf]; [reflexivity|].
    apply list_elem_of_singleton in Hf as ->. reflexivity. }
  split; [split; [reflexivity|split; [reflexivity|exact Hdigits]]|].
  destruct (@media_paths_shape Scenario.alice_archive Scenario.runtime "alice" 1%nat "111" files)
    as [_ Hshape].
  rewrite (Hshape eq_refl eq_refl Hdigits). reflexivity.
Defined.

Lemma stale_store_consistent : store_consistent Scenario.stale_store.
Proof.
  split; [repeat constructor; by intros ?%elem_of_nil|].
  split; [repeat constructor; by intros ?%elem_of_nil|].
  intros k p Hk. simpl in Hk. apply lookup_singleton_Some in Hk as [<- <-].
  split; [done|]. eexists. split; [apply elem_of_cons; by left|done].
Qed.

(** A metadata file that holds a list: the payload is kept, the counters
    are unknown and the body is the caption without its timestamp line. *)
Lemma unusable_metadata_degrades_witness :
  let files := ["111_1.json"; "111_1.txt"] in
  let p := @extract_post Examples.list_metadata Scenario.runtime "alice" 1 "111" files in
  @metadata_unusable Examples.list_metadata "alice" files
  ∧ Post.retweet_count p = JNull
  ∧ Post.text_content p = JString "the caption"
  ∧ Post.raw_json_data p = Some (JArray [JInt 1]).
Proof.
  intros files p.
  assert (Hunusable : @metadata_unusable Examples.list_metadata "alice" files).
  { right. right. exists (JArray [JInt 1]). split; [reflexivity|discriminate]. }
  split; [exact Hunusable|].
  destruct (@unusable_metadata_degrades Examples.list_metadata Scenario.runtime
              "alice" 1%nat "111" files Hunusable)
    as ((Hrt & _) & Hcaption & _ & Hraw & _).
  split; [exact Hrt|]. subst p. split.
  - rewrite (Hcaption "111_1.txt"
               ("2021-05-05 12:00:00" +:+ String "010" "the caption") eq_refl eq_refl);
      [reflexivity|discriminate].
  - exact (Hraw "111_1.json" (JArray [JInt 1]) eq_refl eq_refl eq_refl).
Defined.

(** Of two files that name [alice], the one with the greater name wins. *)
Lemma greatest_matching_file_supplies_profile_witness :
  let names := ["111_1.json"; "222_1.json"] in
  ("222_1.json" ∈ names
   ∧ Py.endswith "222_1.json" ".json" = true
   ∧ @names_author Examples.two_records "alice" "222_1.json" = Some Examples.newer_record
   ∧ @names_author Examples.two_records "alice" "111_1.json" = Some Examples.older_record)
  ∧ User.followers_count
      (@refresh_profile Examples.two_records "alice" names
         (Scenario.user_with_followers 1 "alice" (JInt 100))) = JInt 20.
Proof.
  intros names.
  assert (Hin : "222_1.json" ∈ names) by (apply elem_of_cons; right; apply elem_of_cons; by left).
  split; [split; [exact Hin|repeat split; reflexivity]|].
  rewrite (@greatest_matching_file_supplies_profile Examples.two_records "alice" names
             (Scenario.user_with_followers 1 "alice" (JInt 100)) "222_1.json"
             Examples.newer_record Hin eq_refl eq_refl); [reflexivity|].
  intros g Hg _ _. apply elem_of_cons in Hg as [->|Hg]; [reflexivity|].
  apply list_elem_of_singleton in Hg as ->. reflexivity.
Defined.

(** The files of the end-to-end scenario name no author: the row stays. *)
Lemma profile_unchanged_without_match_witness :
  @refresh_profile Scenario.alice_archive "alice"
    ["111_20200101.json"; "111_20200101.jpg"]
    (Scenario.user_with_followers 1 "alice" (JInt 100))
  = Scenario.user_with_followers 1 "alice" (JInt 100).
Proof.
  apply (@profile_unchanged_without_match Scenario.alice_archive).
  intros g Hg Hjson. apply elem_of_cons in Hg as [->|Hg]; [reflexivity|].
  apply list_elem_of_singleton in Hg as ->. discriminate Hjson.
Defined.

(** A reposted post in the folder of [alice]: the record supplied is the
    [author] record, that of [bob], because the [user] record names her. *)
Lemma author_record_selection_witness :
  (dict_lookup "author" Examples.repost_record = Some (JObject [("nick", JString "bob")])
   ∧ [("nick", JString "bob")] ≠ ([] : list (string * jvalue)))
  ∧ catch (user_info_of "alice" (JObject Examples.repost_record)) None
    = Some [("nick", JString "bob")].
Proof.
  assert (Hne : [("nick", JString "bob")] ≠ ([] : list (string * jvalue))) by discriminate.
  split; [split; [reflexivity|exact Hne]|].
  destruct (author_record_selection "alice" Examples.repost_record) as (Hauthor & _ & _).
  rewrite (Hauthor [("nick", JString "bob")] eq_refl Hne). reflexivity.
Defined.

(** A scheduled sweep over two authors, one of whom has a stale post. *)
Lemma auto_scan_never_deletes_witness :
  ∃ st',
    @auto_scan_all_users_job Examples.two_authors Scenario.runtime
      (Examples.root_of ["alice"; "bob"; "readme.txt"]) Scenario.stale_store
    = (SweepDone 1 0, st')
    ∧ posts st' !! "999" = Some (empty_post "999" 1).
Proof.
  eexists. split; [vm_compute; reflexivity|].
  eapply (@auto_scan_never_deletes Examples.two_authors Scenario.runtime
            (Examples.root_of ["alice"; "bob"; "readme.txt"]) Scenario.stale_store _ 1%nat 0%nat);
    [vm_compute; reflexivity|reflexivity].
Defined.



(** [alice] is synced, the listing of [carol] fails, [bob] is not reached. *)
Lemma sweep_stops_at_unlistable_witness :
  let fs := Examples.with_unlistable "carol" Examples.two_authors in
  ∃ st1,
    @scan_users fs Scenario.runtime false ["alice"] 0 0 Scenario.empty_store
      = (SweepDone 1 0, st1)
    ∧ @isdir fs "carol" = true
    ∧ @listdir fs "carol" = None
    ∧ @scan_users fs Scenario.runtime false (["alice"] ++ "carol" :: ["bob"]) 0 0
        Scenario.empty_store
      = (SweepRaised, (ensure_user "carol" st1).2)
    ∧ posts (ensure_user "carol" st1).2 !! "222" = None.
Proof.
  intros fs. eexists. split; [vm_compute; reflexivity|].
  split; [reflexivity|]. split; [reflexivity|].
  edestruct (@sweep_stops_at_unlistable fs Scenario.runtime false ["alice"] ["bob"] "carol"
               Scenario.empty_store) as [Hrun Hposts];
    [vm_compute; reflexivity|reflexivity|reflexivity|].
  split; [exact Hrun|]. rewrite Hposts. vm_compute. reflexivity.
Defined.

(** The handle [alice], and the same handle with a final newline. *)
Lemma valid_username_shape_witness :
  is_valid_username "alice" = true
  ∧ is_valid_username ("alice" +:+ String "010" "") = true
  ∧ contains_char "/" "alice" = false
  ∧ contains_char "." "alice" = false.
Proof.
  destruct (valid_username_shape "alice") as [[_ Hshape] Hplain].
  destruct (valid_username_shape ("alice" +:+ String "010" "")) as [[_ Hnewline] _].
  assert (Hvalid : is_valid_username "alice" = true).
  { apply Hshape. exists "alice". split; [discriminate|]. split; [reflexivity|by left]. }
  split; [exact Hvalid|]. split.
  - apply Hnewline. exists "alice". split; [discriminate|]. split; [reflexivity|by right].
  - destruct (Hplain Hvalid) as (Hslash & _ & Hdot). by split.
Defined.

(** A request with a redundant component is served from the folder of
    [alice]; what it hands over has only proper components. *)
Lemma serve_media_stays_below_root_witness :
  let host := Examples.host "/data" ["/data/alice"] ["/data/alice/111.jpg"] in
  @serve_media host "alice/./111.jpg" = SendFromDirectory "/data/alice" "111.jpg"
  ∧ ∃ user_dirname comps,
      proper_component user_dirname
      ∧ comps ≠ [] ∧ Forall proper_component comps
      ∧ "/data/alice" = Py.path_join "/data" user_dirname
      ∧ "111.jpg" = join_with "/" comps.
Proof.
  intros host.
  assert (Hserve : @serve_media host "alice/./111.jpg"
                   = SendFromDirectory "/data/alice" "111.jpg") by reflexivity.
  split; [exact Hserve|].
  destruct (@serve_media_stays_below_root host _ _ _ Hserve)
    as (user_dirname & comps & Huser & Hne & Hcomps & Hdir & Hpath & _).
  by exists user_dirname, comps.
Defined.

(** The path stored for the picture of the end-to-end scenario. *)
Lemma stored_media_path_is_served_witness :
  let host := Examples.host "/data" ["/data/alice"] ["/data/alice/111_20200101.jpg"] in
  (proper_component "alice" ∧ proper_component "111_20200101.jpg")
  ∧ media_path "alice" "111_20200101.jpg" = "alice/111_20200101.jpg"
  ∧ @serve_media host (media_path "alice" "111_20200101.jpg")
    = SendFromDirectory "/data/alice" "111_20200101.jpg".
Proof.
  intros host.
  assert (Huser : proper_component "alice") by (repeat split; (discriminate || reflexivity)).
  assert (Hfile : proper_component "111_20200101.jpg")
    by (repeat split; (discriminate || reflexivity)).
  split; [by split|].
  exact (@stored_media_path_is_served host "alice" "111_20200101.jpg"
           Huser eq_refl eq_refl Hfile eq_refl eq_refl eq_refl).
Defined.


(** The first view of the page of [alice] syncs her folder and shows the
    post of the end-to-end scenario. *)
Lemma all_posts_view_lists_author_posts_witness :
  ∃ db_user st',
    @user_posts_all Scenario.alice_archive Scenario.runtime "alice" Scenario.empty_store
    = (Rendered (db_user, [Scenario.alice_post 1]), st')
    ∧ query_user st' "alice" = Some db_user
    ∧ length [Scenario.alice_post 1] = size (posts_of (User.id db_user) (posts st')).
Proof.
  eexists _, _.
  split; [vm_compute; reflexivity|].
  edestruct (@all_posts_view_lists_author_posts Scenario.alice_archive Scenario.runtime
               "alice" Scenario.empty_store) as (Hquery & _ & Hlength & _);
    [exact empty_store_consistent|vm_compute; reflexivity|].
  split; [exact Hquery|exact Hlength].
Defined.

(** A post of two hours and a hundred seconds ago. *)
Lemma relative_time_label_bounds_witness :
  let clock := Examples.clock (mk_timedelta 0 7300 0) in
  let dt := mk_datetime 2020 1 1 0 0 0 0 in
  (0 ≤ seconds (@now_minus clock dt) < 86400)%Z
  ∧ ((∃ n, 1 ≤ n ∧ @relative_time_filter clock (Some dt) = pretty n +:+ " 年前")
     ∨ (∃ n, 1 ≤ n ≤ 12 ∧ @relative_time_filter clock (Some dt) = pretty n +:+ " 月前")
     ∨ (∃ n, 1 ≤ n ≤ 23 ∧ @relative_time_filter clock (Some dt) = pretty n +:+ " 小时前")
     ∨ (∃ n, 1 ≤ n ≤ 60 ∧ @relative_time_filter clock (Some dt) = pretty n +:+ " 分钟前")
     ∨ @relative_time_filter clock (Some dt) = "刚刚")%Z.
Proof.
  intros clock dt.
  assert (Hrange : (0 ≤ seconds (@now_minus clock dt) < 86400)%Z) by (simpl; lia).
  split; [exact Hrange|].
  exact (@relative_time_label_bounds clock dt Hrange).
Defined.

(** Twenty-nine days and ten seconds ago is "just now". *)
Lemma relative_time_ignores_days_witness :
  let clock := Examples.clock (mk_timedelta 29 10 0) in
  let dt := mk_datetime 2020 1 1 0 0 0 0 in
  (days (@now_minus clock dt) ≤ 30)%Z
  ∧ @relative_time_filter clock (Some dt) = "刚刚".
Proof.
  intros clock dt.
  assert (Hdays : (days (@now_minus clock dt) ≤ 30)%Z) by (simpl; lia).
  split; [exact Hdays|].
  destruct (@relative_time_ignores_days clock dt dt Hdays) as [_ Hjust].
  apply Hjust. simpl. lia.
Defined.
